(** * DICOM / NIfTI conversion and RT-Struct export ([totalsegmentator/dicom_io.py])

    A shallow embedding of the orientation transformer ([_reorient_to_lps]),
    the RT-Struct exporter ([save_mask_as_rtstruct]) and the two DICOM to NIfTI
    converters ([dcm_to_nifti], [dcm_to_nifti_LEGACY]), together with the
    NumPy / nibabel / rt_utils operations they call. *)

From Stdlib Require Import String Ascii.
From Stdlib Require Import List Finite Arith ZArith Lia Bool Permutation.
Import ListNotations.
Open Scope string_scope.
Open Scope list_scope.
Open Scope nat_scope.

Set Implicit Arguments.

(** ** Python exceptions and results *)

Inductive exn : Type :=
| ValueError (msg : string)
| TypeError (msg : string)
| OrientationError (msg : string)
| FileNotFoundError (path : string)
| LibraryError (msg : string).

Inductive result (A : Type) : Type :=
| OK (a : A)
| Raise (e : exn).
Arguments OK {A} a.
Arguments Raise {A} e.

Definition bind {A B : Type} (r : result A) (k : A -> result B) : result B :=
  match r with
  | OK a => k a
  | Raise e => Raise e
  end.

Declare Scope result_scope.
Delimit Scope result_scope with result.
Notation "x <- r ;; k" := (bind r (fun x => k))
  (at level 61, r at next level, right associativity) : result_scope.


(** Effectful code: a computation reads and updates a world [W] and either
    returns or raises; what it did to the world before raising stays done. *)
Definition M (W A : Type) : Type := W -> result A * W.

Definition ret {W A} (a : A) : M W A := fun w => (OK a, w).

Definition raise {W A} (e : exn) : M W A := fun w => (Raise e, w).

Definition lift {W A} (r : result A) : M W A := fun w => (r, w).

Definition mbind {W A B} (m : M W A) (k : A -> M W B) : M W B :=
  fun w =>
    match m w with
    | (OK a, w') => k a w'
    | (Raise e, w') => (Raise e, w')
    end.

Declare Scope monad_scope.
Delimit Scope monad_scope with monad.
Notation "x <-- m ;; k" := (mbind m (fun x => k))
  (at level 61, m at next level, right associativity) : monad_scope.
Notation "m ;;; k" := (mbind m (fun _ => k))
  (at level 61, right associativity) : monad_scope.

Definition when {W} (b : bool) (m : M W unit) : M W unit :=
  if b then m else ret tt.

Fixpoint for_each {W X} (l : list X) (body : X -> M W unit) : M W unit :=
  match l with
  | [] => ret tt
  | x :: rest => (body x ;;; for_each rest body)%monad
  end.

(** ** NumPy arrays

    An n-dimensional array is its shape and its elements, addressed by an
    index tuple.  Only the elements at in-bounds index tuples are meaningful. *)

Record ndarray (A : Type) : Type := mk_ndarray {
  shape : list nat;
  item : list nat -> A
}.

Definition ndim {A} (x : ndarray A) : nat := length (shape x).

Definition in_bounds (s idx : list nat) : Prop := Forall2 lt idx s.

(** [np.array_equal]: same shape and same element at every index of the shape. *)
Definition array_equal {A} (x y : ndarray A) : Prop :=
  shape x = shape y /\
  forall idx, in_bounds (shape x) idx -> item x idx = item y idx.

(** Index tuples of a shape, in C (row-major) order. *)
Fixpoint ndindex (s : list nat) : list (list nat) :=
  match s with
  | [] => [[]]
  | n :: s' => flat_map (fun i => map (cons i) (ndindex s')) (seq 0 n)
  end.

(** [x.ravel()]: the elements in C order. *)
Definition ravel {A} (x : ndarray A) : list A :=
  map (item x) (ndindex (shape x)).

(** [np.any] on a boolean array. *)
Definition np_any (m : ndarray bool) : bool :=
  existsb (item m) (ndindex (shape m)).

(** Elementwise map ([astype], comparison against a scalar). *)
Definition np_map {A B} (f : A -> B) (x : ndarray A) : ndarray B :=
  {| shape := shape x; item := fun idx => f (item x idx) |}.

(** Build an array from nested lists; [d] fills the positions outside. *)
Definition array3 {A} (d : A) (l : list (list (list A))) : ndarray A :=
  {| shape := [length l; length (hd [] l); length (hd [] (hd [] l))];
     item := fun idx =>
       match idx with
       | [i; j; k] => nth k (nth j (nth i l []) []) d
       | _ => d
       end |}.

(** Index tuple of the source element: position [ax] is mirrored. *)
Fixpoint flip_index (s idx : list nat) (ax : nat) : list nat :=
  match s, idx with
  | n :: s', i :: idx' =>
      match ax with
      | 0 => (n - 1 - i) :: idx'
      | S ax' => i :: flip_index s' idx' ax'
      end
  | _, _ => idx
  end.

(** [np.flip(x, axis=ax)] *)
Definition np_flip {A} (x : ndarray A) (ax : nat) : ndarray A :=
  {| shape := shape x;
     item := fun idx => item x (flip_index (shape x) idx ax) |}.

Fixpoint index_of (j : nat) (l : list nat) : nat :=
  match l with
  | [] => 0
  | a :: l' => if a =? j then 0 else S (index_of j l')
  end.

Definition is_axes_permutation (axes : list nat) (n : nat) : bool :=
  (length axes =? n) && forallb (fun j => existsb (Nat.eqb j) axes) (seq 0 n).

(** [np.transpose(x, axes)]: axis [i] of the result is axis [axes[i]] of [x]. *)
Definition np_transpose {A} (x : ndarray A) (axes : list nat) : result (ndarray A) :=
  if is_axes_permutation axes (ndim x) then
    OK {| shape := map (fun a => nth a (shape x) 0) axes;
          item := fun idx =>
            item x (map (fun j => nth (index_of j axes) idx 0)
                        (seq 0 (length axes))) |}
  else Raise (ValueError "axes don't match array").

(** [np.argsort] (ties keep their order). *)
Fixpoint insert_by_key (p : nat * nat) (l : list (nat * nat)) : list (nat * nat) :=
  match l with
  | [] => [p]
  | q :: l' => if fst p <=? fst q then p :: l else q :: insert_by_key p l'
  end.

Definition argsort (keys : list nat) : list nat :=
  map snd (fold_right insert_by_key [] (combine keys (seq 0 (length keys)))).

(** ** nibabel.orientations

    An orientation array has one row per array axis: the anatomical axis it
    runs along and the direction ([1] or [-1]); a row of NaNs is [None]. *)

Definition orow : Type := option (nat * Z).
Definition ornt : Type := list orow.

Inductive axcode : Type := AxL | AxR | AxP | AxA | AxI | AxS.

(** Row of one axis code under the default labels
    [(('L','R'), ('P','A'), ('I','S'))]. *)
Definition axcode_row (c : axcode) : orow :=
  match c with
  | AxL => Some (0, (-1)%Z)
  | AxR => Some (0, 1%Z)
  | AxP => Some (1, (-1)%Z)
  | AxA => Some (1, 1%Z)
  | AxI => Some (2, (-1)%Z)
  | AxS => Some (2, 1%Z)
  end.

Definition axcodes2ornt (axcodes : list axcode) : ornt :=
  map axcode_row axcodes.

Fixpoint list_set {X} (l : list X) (i : nat) (v : X) : list X :=
  match l, i with
  | [], _ => []
  | _ :: l', 0 => v :: l'
  | x :: l', S i' => x :: list_set l' i' v
  end.

(** First row of [start] (from position [i] on) lying on anatomical axis
    [out]: its position and its direction. *)
Fixpoint find_start (start : ornt) (out : nat) (i : nat) : option (nat * Z) :=
  match start with
  | [] => None
  | Some (a, f) :: rest => if a =? out then Some (i, f) else find_start rest out (S i)
  | None :: rest => find_start rest out (S i)
  end.

Fixpoint ornt_transform_rows (start_ornt : ornt) (end_rows : list (nat * orow))
    (res : ornt) : result ornt :=
  match end_rows with
  | [] => OK res
  | (end_in_idx, Some (end_out_idx, end_flip)) :: rest =>
      match find_start start_ornt end_out_idx 0 with
      | Some (start_in_idx, start_flip) =>
          let flip := if (start_flip =? end_flip)%Z then 1%Z else (-1)%Z in
          ornt_transform_rows start_ornt rest
            (list_set res start_in_idx (Some (end_in_idx, flip)))
      | None => Raise (ValueError "Unable to find out axis in start_ornt")
      end
  | (_, None) :: _ => Raise (ValueError "Unable to find out axis in start_ornt")
  end.

Section Orientations.

(** The rows [np.empty_like] leaves in the result before they are assigned. *)
Variable junk : orow.

Definition ornt_transform (start_ornt end_ornt : ornt) : result ornt :=
  if negb (length start_ornt =? length end_ornt) then
    Raise (ValueError "The orientations must have the same shape")
  else
    ornt_transform_rows start_ornt
      (combine (seq 0 (length end_ornt)) end_ornt)
      (repeat junk (length start_ornt)).

Definition isnan (r : orow) : bool :=
  match r with None => true | Some _ => false end.

Definition row_axis (r : orow) : nat :=
  match r with Some (a, _) => a | None => 0 end.

Definition row_flip (r : orow) : Z :=
  match r with Some (_, f) => f | None => 0%Z end.

Definition apply_flips {V} (arr : ndarray V) (rows : list (nat * orow)) : ndarray V :=
  fold_left (fun t '(ax, r) => if (row_flip r =? -1)%Z then np_flip t ax else t)
            rows arr.

Definition apply_orientation {V} (arr : ndarray V) (o : ornt) : result (ndarray V) :=
  let n := length o in
  if ndim arr <? n then
    Raise (OrientationError "Data array has fewer dimensions than orientation")
  else if existsb isnan o then
    Raise (OrientationError "Cannot drop coordinates when applying orientation to data")
  else
    let t_arr := apply_flips arr (combine (seq 0 n) o) in
    let full_transpose := argsort (map row_axis o) ++ seq n (ndim t_arr - n) in
    np_transpose t_arr full_transpose.

(** ** The orientation transformer *)

Variable Affine : Type.
Variable voxel : Type.

(** [nibabel.orientations.io_orientation]: the orientation a 4x4 affine
    implies (a floating-point polar decomposition, not embedded). *)
Variable io_orientation : Affine -> ornt.

Record Nifti1Image : Type := mk_Nifti1Image {
  affine : Affine;
  get_fdata : ndarray voxel
}.

(** Lines 158 and 162 of [_reorient_to_lps] for any current and target
    orientation: the transform between the two, applied to the data. *)
Definition align_ornt (x : ndarray voxel) (current_ornt target_ornt : ornt)
  : result (ndarray voxel) :=
  (transform <- ornt_transform current_ornt target_ornt ;;
   apply_orientation x transform)%result.

Definition _reorient_to_lps (segmentation_img : Nifti1Image) : result (ndarray voxel) :=
  let current_ornt := io_orientation (affine segmentation_img) in
  let target_ornt := axcodes2ornt [AxL; AxP; AxS] in
  (transform <- ornt_transform current_ornt target_ornt ;;
   let data := get_fdata segmentation_img in
   if negb (ndim data =? 3) then
     Raise (ValueError "Segmentation image must be 3D to convert to RT Struct.")
   else
     reoriented <- apply_orientation data transform ;;
     OK reoriented)%result.

End Orientations.

(** ** The RT-Struct exporter *)

(** rt_utils: a document is anchored to its reference series and holds the
    ROI entries in the order they were added. *)
Record ROI : Type := mk_ROI {
  roi_name : string;
  roi_mask : ndarray Z
}.

Record RTStruct : Type := mk_RTStruct {
  series_path : string;
  rois : list ROI
}.

(** What the exporter writes: one entry per [rtstruct.save(path)] call. *)
Definition saved_files : Type := list (string * RTStruct).

Definition uint8_of_bool (b : bool) : Z := if b then 1%Z else 0%Z.

Section Exporter.

Variable junk : orow.
Variable Affine : Type.
Variable voxel : Type.
Variable io_orientation : Affine -> ornt.

(** [==] between a voxel value and a class index of the class map. *)
Variable voxel_eqb : voxel -> Z -> bool.

(** rt_utils is an external collaborator: loading the reference series and
    building the contours of one mask succeed or raise. *)
Variable create_new_error : string -> option exn.
Variable add_roi_error : RTStruct -> ndarray Z -> string -> option exn.

Definition create_new (dicom_series_path : string) : result RTStruct :=
  match create_new_error dicom_series_path with
  | Some e => Raise e
  | None => OK {| series_path := dicom_series_path; rois := [] |}
  end.

Definition add_roi (rtstruct : RTStruct) (mask : ndarray Z) (name : string)
  : result RTStruct :=
  match add_roi_error rtstruct mask name with
  | Some e => Raise e
  | None => OK {| series_path := series_path rtstruct;
                  rois := rois rtstruct ++ [{| roi_name := name; roi_mask := mask |}] |}
  end.

Definition save (rtstruct : RTStruct) (path : string) : M saved_files unit :=
  fun w => (OK tt, w ++ [(path, rtstruct)]).

(** The first argument of the exporter is any Python object. *)
Inductive pyobj : Type :=
| PyNifti1Image (img : Nifti1Image Affine voxel)
| PyOther.

(** [slices_first == class_idx] *)
Definition class_mask (slices_first : ndarray voxel) (class_idx : Z) : ndarray bool :=
  np_map (fun v => voxel_eqb v class_idx) slices_first.

(** The loop over [selected_classes.items()]; [rtstruct] is the document
    built so far. *)
Fixpoint add_classes (slices_first : ndarray voxel) (items : list (Z * string))
    (rtstruct : RTStruct) : M saved_files RTStruct :=
  match items with
  | [] => ret rtstruct
  | (class_idx, class_name) :: rest =>
      let mask := class_mask slices_first class_idx in
      if negb (np_any mask) then add_classes slices_first rest rtstruct
      else
        (rtstruct' <-- lift (add_roi rtstruct (np_map uint8_of_bool mask) class_name) ;;
         add_classes slices_first rest rtstruct')%monad
  end.

(** What the loop body does for one class: whether it has a voxel, and the
    entry it adds if so. *)
Definition class_present (slices_first : ndarray voxel) (class_idx : Z) : bool :=
  np_any (class_mask slices_first class_idx).

Definition class_roi (slices_first : ndarray voxel) (entry : Z * string) : ROI :=
  {| roi_name := snd entry;
     roi_mask := np_map uint8_of_bool (class_mask slices_first (fst entry)) |}.

Definition save_mask_as_rtstruct (segmentation_img : pyobj)
    (selected_classes : list (Z * string))
    (dcm_reference_file output_path : string) : M saved_files unit :=
  match segmentation_img with
  | PyOther => raise (TypeError "segmentation_img must be a nibabel.Nifti1Image instance")
  | PyNifti1Image img =>
      (lps_volume <-- lift (_reorient_to_lps junk io_orientation img) ;;
       slices_first <-- lift (np_transpose lps_volume [2; 1; 0]) ;;
       rtstruct <-- lift (create_new dcm_reference_file) ;;
       rtstruct' <-- add_classes slices_first selected_classes rtstruct ;;
       save rtstruct' output_path)%monad
  end.

End Exporter.

(** ** Strings and paths *)

(** [s.endswith(suffix)]: some tail of [s] is [suffix]. *)
Fixpoint endswith (s suffix : string) : bool :=
  (s =? suffix)%string ||
  match s with
  | EmptyString => false
  | String _ rest => endswith rest suffix
  end.

(** [sub in s] *)
Fixpoint contains (sub s : string) : bool :=
  prefix sub s ||
  match s with
  | EmptyString => false
  | String _ rest => contains sub rest
  end.

(** [s[:-n]] for a positive [n] *)
Definition drop_last (n : nat) (s : string) : string :=
  substring 0 (String.length s - n) s.

(** [s[-1]], when there is one *)
Fixpoint last_char (s : string) : option ascii :=
  match s with
  | EmptyString => None
  | String c EmptyString => Some c
  | String _ rest => last_char rest
  end.

Definition dquote : string := String (ascii_of_nat 34) EmptyString.

(** pathlib: a path is its directory and its final component. *)
Record Path : Type := mk_Path {
  parent : string;
  name : string
}.

Definition str (p : Path) : string := parent p ++ "/" ++ name p.

(** [dir / name] *)
Definition joinpath (dir name : string) : Path := {| parent := dir; name := name |}.

(** What [print] received: a line of text, or a list of names. *)
Inductive printed : Type :=
| Text (s : string)
| Names (l : list string).

(** The file system is the listing of the files that exist, in listing
    order, each identified by the string of its path; [stdout] collects what
    was printed. *)
Record world : Type := mk_world {
  files : list Path;
  stdout : list printed
}.

Definition print (p : printed) : M world unit :=
  fun w => (OK tt, {| files := files w; stdout := stdout w ++ [p] |}).

Definition is_file (s : string) (p : Path) : bool := (str p =? s)%string.

(** [Path.exists()] *)
Definition path_exists (s : string) : M world bool :=
  fun w => (OK (existsb (is_file s) (files w)), w).

(** [os.remove]: the file must exist. *)
Definition os_remove (s : string) : M world unit :=
  fun w =>
    if existsb (is_file s) (files w) then
      (OK tt, {| files := filter (fun p => negb (is_file s p)) (files w);
                 stdout := stdout w |})
    else (Raise (FileNotFoundError s), w).

(** [os.chmod]: the file must exist; the listing does not change. *)
Definition os_chmod (s : string) : M world unit :=
  fun w =>
    if existsb (is_file s) (files w) then (OK tt, w)
    else (Raise (FileNotFoundError s), w).

(** [list(dir.glob("*"))] and [list(dir.glob("*.nii.gz"))] *)
Definition glob_all (dir : string) : M world (list Path) :=
  fun w => (OK (filter (fun p => (parent p =? dir)%string) (files w)), w).

Definition is_nii_in (dir : string) (p : Path) : bool :=
  (parent p =? dir)%string && endswith (name p) ".nii.gz".

Definition glob_nii (dir : string) : M world (list Path) :=
  fun w => (OK (filter (is_nii_in dir) (files w)), w).

(** The candidate volume files of a directory. *)
Definition candidates (dir : string) (w : world) : list Path :=
  filter (is_nii_in dir) (files w).

Definition is_roi (p : Path) : bool := contains "ROI" (name p).

Definition not_roi (p : Path) : bool := negb (is_roi p).

(** The sidecar of an output path: its last seven characters replaced by
    [.json]. *)
Definition sidecar (output_path : Path) : string :=
  drop_last 7 (str output_path) ++ ".json".

(** A listing without the files of [gone]. *)
Definition remove_files (gone l : list Path) : list Path :=
  filter (fun q => negb (existsb (fun g => is_file (str g) q) gone)) l.

(** Closed form of lines 109 to 126: the world the disambiguation leaves,
    before the sidecar is removed ([select_volume_spec] relates it to the
    code). *)
Definition disambiguated (dir : string) (w : world) : world :=
  let cands := candidates dir w in
  let several := 1 <? length cands in
  let gone := if several then filter is_roi cands else [] in
  let kept := if several then filter not_roi cands else cands in
  let several' := 1 <? length kept in
  {| files := remove_files (if several' then tl kept else [])
                (remove_files gone (files w));
     stdout := stdout w
       ++ (if several then
             Text "WARNING: Dicom to nifti resulted in several nifti files. Skipping files which contain ROI in filename."
             :: map (fun p => Text ("Skipped: " ++ name p)) gone
           else [])
       ++ (if several' then
             [Text "WARNING: Dicom to nifti resulted in several nifti files. Only using first one.";
              Names (map name kept)]
           else []) |}.

(** ** The converters *)

Section Converters.

(** The environment: [platform.system()], [platform.machine()],
    [shutil.which] and [get_weights_dir()]. *)
Variable platform_system : string.
Variable platform_machine : string.
Variable which : string -> option string.
Variable config_dir : string.

(** External effects: the download, archive extraction, the shell command
    (its exit status is not looked at) and the in-process decoder. *)
Variable urlretrieve : string -> string -> M world unit.
Variable extractall : string -> string -> M world unit.
Variable subprocess_call : string -> world -> world.
Variable is_zipfile : string -> world -> bool.
Variable splitext0 : string -> string.
Variable dicom_series_to_nifti : string -> Path -> M world unit.

Definition command_exists (command : string) : bool :=
  match which command with Some _ => true | None => false end.

Definition release : string :=
  "https://github.com/rordenlab/dcm2niix/releases/download/v1.0.20230411/".

Definition download_dcm2niix : M world unit :=
  (print (Text "  Downloading dcm2niix...") ;;;
   url <-- (if (platform_system =? "Windows")%string then
              ret (release ++ "dcm2niix_win.zip")%string
            else if (platform_system =? "Darwin")%string then
              if prefix "arm" platform_machine || prefix "aarch" platform_machine then
                ret (release ++ "dcm2niix_macos.zip")%string
              else
                ret (release ++ "dcm2niix_macos.zip")%string
            else if (platform_system =? "Linux")%string then
              ret (release ++ "dcm2niix_lnx.zip")%string
            else
              raise (ValueError
                "Unknown operating system. Can not download the right version of dcm2niix.")) ;;
   urlretrieve url (str (joinpath config_dir "dcm2niix.zip")) ;;;
   extractall (str (joinpath config_dir "dcm2niix.zip")) config_dir ;;;
   (if (platform_system =? "Windows")%string then
      os_chmod (str (joinpath config_dir "dcm2niix.exe"))
    else
      os_chmod (str (joinpath config_dir "dcm2niix"))) ;;;
   zip_there <-- path_exists (str (joinpath config_dir "dcm2niix.zip")) ;;
   when zip_there (os_remove (str (joinpath config_dir "dcm2niix.zip"))) ;;;
   batch_there <-- path_exists (str (joinpath config_dir "dcm2niibatch")) ;;
   when batch_there (os_remove (str (joinpath config_dir "dcm2niibatch"))))%monad.

(** Lines 88 to 102 of [dcm_to_nifti_LEGACY]: find (or download) the binary
    and run it. *)
Definition run_dcm2niix (input_path : string) (output_path : Path) (verbose : bool)
  : M world unit :=
  let verbose_str := if verbose then "" else "> /dev/null" in
  (dcm2niix <-- (if command_exists "dcm2niix" then ret "dcm2niix"
                 else
                   let dcm2niix :=
                     if (platform_system =? "Windows")%string
                     then joinpath config_dir "dcm2niix.exe"
                     else joinpath config_dir "dcm2niix" in
                   there <-- path_exists (str dcm2niix) ;;
                   when (negb there) download_dcm2niix ;;;
                   ret (str dcm2niix)) ;;
   fun w =>
     (OK tt,
      subprocess_call
        (dquote ++ dcm2niix ++ dquote ++ " -o " ++ parent output_path ++ " -z y -f "
           ++ drop_last 7 (name output_path) ++ " " ++ input_path ++ " " ++ verbose_str)%string
        w))%monad.

Definition remove_if_roi (nii_file : Path) : M world unit :=
  if contains "ROI" (name nii_file) then
    (os_remove (str nii_file) ;;;
     print (Text ("Skipped: " ++ name nii_file)))%monad
  else ret tt.

(** Lines 104 to 128 of [dcm_to_nifti_LEGACY]: check the output, keep one
    volume file, remove the sidecar. *)
Definition select_volume (output_path : Path) : M world unit :=
  (there <-- path_exists (str output_path) ;;
   (if negb there then
      print (Text ("Content of dcm2niix output folder (" ++ parent output_path ++ "):")) ;;;
      content <-- glob_all (parent output_path) ;;
      print (Names (map str content)) ;;;
      raise (ValueError "dcm2niix failed to convert dicom to nifti.")
    else ret tt) ;;;
   nii_files <-- glob_nii (parent output_path) ;;
   when (1 <? length nii_files)
     (print (Text "WARNING: Dicom to nifti resulted in several nifti files. Skipping files which contain ROI in filename.") ;;;
      for_each nii_files remove_if_roi) ;;;
   nii_files <-- glob_nii (parent output_path) ;;
   when (1 <? length nii_files)
     (print (Text "WARNING: Dicom to nifti resulted in several nifti files. Only using first one.") ;;;
      print (Names (map name nii_files)) ;;;
      for_each (tl nii_files) (fun nii_file => os_remove (str nii_file))) ;;;
   os_remove (drop_last 7 (str output_path) ++ ".json"))%monad.

Definition dcm_to_nifti_LEGACY (input_path : string) (output_path : Path) (verbose : bool)
  : M world unit :=
  (run_dcm2niix input_path output_path verbose ;;;
   select_volume output_path)%monad.

Definition dcm_to_nifti (input_path : string) (output_path : Path)
    (tmp_dir : option string) (verbose : bool) : M world unit :=
  (is_zip <-- (fun w => (OK (is_zipfile input_path w), w)) ;;
   input_path <-- (if is_zip then
       match tmp_dir with
       | None => raise (ValueError
           "tmp_dir must be set when input_path is a zip file or bytes object of zip file")
       | Some _ => ret tt
       end ;;;
       when verbose (print (Text ("Extracting zip file: " ++ input_path))) ;;;
       let extract_dir :=
         match tmp_dir with
         | None => splitext0 input_path
         | Some tmp_dir => str (joinpath tmp_dir "extracted_dcm")
         end in
       extractall input_path extract_dir ;;;
       ret extract_dir
     else ret input_path) ;;
   dicom_series_to_nifti input_path output_path)%monad.

End Converters.

(** ** The multilabel helper ([tests/helpers/combine_mask_to_multilabel.py]) *)



Section Multilabel.

Variable Affine : Type.
Variable voxel : Type.

(** [v > 0.5] on a voxel of the loaded data. *)
Variable above_half : voxel -> bool.


End Multilabel.

(** ** Orientation codes

    An orientation names every anatomical axis once: its rows hold a
    permutation of the axes, and no row is NaN. *)

Definition full_orientation (o : ornt) (n : nat) : bool :=
  is_axes_permutation (map row_axis o) n && negb (existsb isnan o).

Definition unit_flip (r : orow) : bool :=
  ((row_flip r =? 1) || (row_flip r =? -1))%Z.

Definition signed_permutation (o : ornt) (n : nat) : bool :=
  full_orientation o n && forallb unit_flip o.

(** The axis-code triples that describe the orientation of a volume, such
    as [('R','A','S')] or [('L','P','S')]. *)
Definition valid_axcodes (axcodes : list axcode) : bool :=
  full_orientation (axcodes2ornt axcodes) 3.

(** The transform that undoes [o]: the row of axis [j] holds the position
    and the direction of the row of [o] lying on [j]. *)
Definition invert_ornt (o : ornt) : ornt :=
  map (fun j => find_start o j 0) (seq 0 (length o)).

(** [align_ornt] between two orientations given by their axis codes, the
    way [_reorient_to_lps] gives its target. *)
Definition align (junk : orow) {voxel} (x : ndarray voxel) (A B : list axcode)
  : result (ndarray voxel) :=
  align_ornt junk x (axcodes2ornt A) (axcodes2ornt B).

(** ** Sample inputs *)

(** A 2x3x2 labelled volume and a four-dimensional one; the sample affine
    type has one value, read as the axis codes (R, A, S). *)
Definition sample_volume : ndarray Z :=
  array3 0%Z [[[1; 0]; [0; 0]; [2; 0]];
              [[0; 0]; [0; 3]; [0; 0]]]%Z.


Definition ras_affine (_ : unit) : ornt := axcodes2ornt [AxR; AxA; AxS].

Definition sample_img : Nifti1Image unit Z :=
  {| affine := tt; get_fdata := sample_volume |}.


(** A 2x2x2 segmentation with two voxels of class 1 and none of class 2. *)
Definition sample_seg : Nifti1Image unit Z :=
  {| affine := tt;
     get_fdata := array3 0%Z [[[0; 1]; [0; 0]];
                              [[0; 0]; [1; 0]]]%Z |}.

Definition organ_classes : list (Z * string) :=
  [(1%Z, "organA"); (2%Z, "organB")].


Definition no_create_error (_ : string) : option exn := None.

Definition no_roi_error (_ : RTStruct) (_ : ndarray Z) (_ : string) : option exn := None.

(** Contour construction that fails for the ROI named organA. *)
Definition organA_fails (_ : RTStruct) (_ : ndarray Z) (name : string) : option exn :=
  if (name =? "organA")%string then Some (LibraryError "degenerate mask") else None.

Definition sample_export (classes : list (Z * string)) : result unit * saved_files :=
  save_mask_as_rtstruct None ras_affine Z.eqb no_create_error no_roi_error
    (PyNifti1Image sample_seg) classes "/ref" "/out/seg.dcm" [].

(** A machine with dcm2niix on the path; the binary emits the given files. *)
Definition on_path (_ : string) : option string := Some "/usr/bin/dcm2niix".

Definition no_download (_ _ : string) : M world unit := ret tt.

Definition emits (out : list Path) (_ : string) (w : world) : world :=
  {| files := files w ++ out; stdout := stdout w |}.

Definition empty_world : world := {| files := []; stdout := [] |}.

Definition ct_output : Path := joinpath "/out" "ct.nii.gz".

Definition three_volumes : list Path :=
  [joinpath "/out" "ct_ROI1.nii.gz"; joinpath "/out" "ct.nii.gz";
   joinpath "/out" "cta.nii.gz"; joinpath "/out" "ct.json"].



Definition sample_legacy (out : list Path) (output_path : Path) : result unit * world :=
  dcm_to_nifti_LEGACY "Linux" "x86_64" on_path "/cfg" no_download no_download
    (emits out) "/in" output_path false empty_world.

Definition zip_by_name (p : string) (_ : world) : bool := endswith p ".zip".

Definition no_decoder (_ : string) (_ : Path) : M world unit := ret tt.




(** An unpacking that leaves the archive and the Linux binary. *)
Definition unpacks_binary (_ _ : string) : M world unit :=
  fun w => (OK tt, {| files := files w ++ [joinpath "/cfg" "dcm2niix.zip";
                                           joinpath "/cfg" "dcm2niix";
                                           joinpath "/cfg" "dcm2niibatch"];
                      stdout := stdout w |}).

Definition not_on_path (_ : string) : option string := None.

(** The three volumes and their sidecar, beside a file of the user. *)
Definition volumes_and_notes : list Path :=
  three_volumes ++ [joinpath "/out" "notes.txt"].

(** * Properties *)

(** ** Results *)

Lemma bind_OK_inv {X Y} (r : result X) (k : X -> result Y) (y : Y) :
  bind r k = OK y -> exists x, r = OK x /\ k x = OK y.
Proof.
  destruct r as [x | e]; simpl; intros H; [eauto | discriminate].
Qed.

(** ** Index tuples *)

Lemma in_ndindex (s idx : list nat) : In idx (ndindex s) <-> in_bounds s idx.
Proof.
  unfold in_bounds. revert idx.
  induction s as [| n s IH]; simpl; intros idx; split.
  - intros [<- | []]. constructor.
  - intros H. inversion H. now left.
  - rewrite in_flat_map. intros (i & Hi & Hm).
    apply in_map_iff in Hm as (t & <- & Ht). apply in_seq in Hi.
    constructor; [lia | now apply IH].
  - intros H. inversion H as [| i n' t s' Hlt Ht]; subst.
    apply in_flat_map. exists i. split; [apply in_seq; lia |].
    now apply in_map, IH.
Qed.

Lemma NoDup_ndindex (s : list nat) : NoDup (ndindex s).
Proof.
  induction s as [| n s IH]; simpl.
  - constructor; [intros [] | constructor].
  - generalize (seq_NoDup n 0). generalize (seq 0 n) as l.
    induction l as [| a l IHl]; simpl; intros Hnd; [constructor |].
    inversion Hnd as [| ? ? Hnotin Hnd']; subst.
    apply NoDup_app.
    + apply Injective_map_NoDup_in; [| exact IH].
      intros x y _ _ E. now injection E.
    + now apply IHl.
    + intros t Ht Hf. apply in_map_iff in Ht as (u & <- & _).
      apply in_flat_map in Hf as (b & Hb & Hm).
      apply in_map_iff in Hm as (v & E & _).
      injection E as -> _. contradiction.
Qed.

Lemma length_ndindex (s : list nat) :
  length (ndindex s) = fold_right Nat.mul 1 s.
Proof.
  induction s as [| n s IH]; simpl; [reflexivity |].
  rewrite length_flat_map.
  rewrite (map_ext _ (fun _ => fold_right Nat.mul 1 s)).
  2:{ intros i. now rewrite length_map. }
  generalize (fold_right Nat.mul 1 s) as c. intros c.
  generalize 0 as b.
  induction n as [| n IHn]; simpl; intros b; [reflexivity |].
  rewrite IHn. reflexivity.
Qed.

Lemma in_ndindex3 (n0 n1 n2 : nat) (idx : list nat) :
  In idx (ndindex [n0; n1; n2]) <->
  exists i j k, idx = [i; j; k] /\ i < n0 /\ j < n1 /\ k < n2.
Proof.
  rewrite in_ndindex. unfold in_bounds. split.
  - intros H.
    inversion H as [| i ? t0 ? Hi H0]; subst.
    inversion H0 as [| j ? t1 ? Hj H1]; subst.
    inversion H1 as [| k ? t2 ? Hk H2]; subst.
    inversion H2; subst. now exists i, j, k.
  - intros (i & j & k & -> & Hi & Hj & Hk). repeat constructor; assumption.
Qed.

(** Re-indexing along an injection between index sets of equal size only
    rearranges the elements. *)
Lemma reindex_Permutation (phi : list nat -> list nat) (s' s : list nat) :
  fold_right Nat.mul 1 s = fold_right Nat.mul 1 s' ->
  (forall a, In a (ndindex s') -> In (phi a) (ndindex s)) ->
  (forall a b, In a (ndindex s') -> In b (ndindex s') -> phi a = phi b -> a = b) ->
  Permutation (map phi (ndindex s')) (ndindex s).
Proof.
  intros Hlen Hin Hinj.
  apply NoDup_Permutation_bis.
  - apply Injective_map_NoDup_in; [exact Hinj | apply NoDup_ndindex].
  - rewrite length_map, !length_ndindex. lia.
  - intros b Hb. apply in_map_iff in Hb as (a & <- & Ha). now apply Hin.
Qed.

Ltac index3 :=
  repeat match goal with
         | H : In _ (ndindex [_; _; _]) |- _ =>
             apply in_ndindex3 in H;
             let i := fresh "i" in let j := fresh "j" in let k := fresh "k" in
             destruct H as (i & j & k & -> & ? & ? & ?)
         end.

Lemma ravel_np_flip {V} (x : ndarray V) (ax n0 n1 n2 : nat) :
  shape x = [n0; n1; n2] ->
  Permutation (ravel (np_flip x ax)) (ravel x).
Proof.
  intros Hs. unfold ravel, np_flip; simpl. rewrite Hs.
  rewrite <- (map_map (fun idx => flip_index [n0; n1; n2] idx ax) (item x)).
  apply Permutation_map.
  destruct ax as [| [| [| ax]]];
    (apply reindex_Permutation;
     [ reflexivity
     | intros a Ha; index3; simpl; apply in_ndindex3;
       do 3 eexists; split; [reflexivity | lia]
     | intros a b Ha Hb; index3; simpl; intros E; injection E; intros;
       repeat f_equal; lia ]).
Qed.

(** ** Transposition and orientation of 3D arrays *)

Ltac perm_small :=
  repeat first
    [ apply Permutation_refl
    | apply perm_skip
    | apply (@Permutation_cons_app _ _ [_] _ _); simpl
    | apply (@Permutation_cons_app _ _ [_; _] _ _); simpl ].

Lemma axes_permutation3 (axes : list nat) :
  is_axes_permutation axes 3 = true ->
  In axes [[0; 1; 2]; [0; 2; 1]; [1; 0; 2]; [1; 2; 0]; [2; 0; 1]; [2; 1; 0]].
Proof.
  unfold is_axes_permutation.
  destruct axes as [| a [| b [| c [| d axes]]]]; try discriminate.
  destruct a as [| [| [| a]]], b as [| [| [| b]]], c as [| [| [| c]]];
    simpl; intros H; try discriminate H; tauto.
Qed.

Lemma np_transpose_3d {V} (x : ndarray V) (axes : list nat) (n0 n1 n2 : nat) :
  shape x = [n0; n1; n2] ->
  is_axes_permutation axes 3 = true ->
  exists y, np_transpose x axes = OK y /\
            Permutation (shape y) (shape x) /\
            Permutation (ravel y) (ravel x).
Proof.
  intros Hs Hax. unfold np_transpose, ndim. rewrite Hs. simpl length. rewrite Hax.
  eexists. split; [reflexivity |].
  apply axes_permutation3 in Hax.
  unfold ravel. rewrite Hs.
  cbn [In] in Hax.
  decompose [or] Hax; try contradiction; subst axes;
    cbn [map nth index_of Nat.eqb seq length shape item]; split;
    try solve [perm_small];
    match goal with
    | |- Permutation (map (fun idx => item x (@?phi idx)) _) _ =>
        rewrite <- (map_map phi (item x))
    end;
    apply Permutation_map;
    (apply reindex_Permutation;
     [ simpl; ring
     | intros a Ha; index3; simpl; apply in_ndindex3;
       do 3 eexists; split; [reflexivity | lia]
     | intros a b Ha Hb; index3; simpl; intros E; injection E; intros;
       subst; reflexivity ]).
Qed.

Lemma apply_flips_3d {V} (rows : list (nat * orow)) (x : ndarray V) (n0 n1 n2 : nat) :
  shape x = [n0; n1; n2] ->
  shape (apply_flips x rows) = [n0; n1; n2] /\
  Permutation (ravel (apply_flips x rows)) (ravel x).
Proof.
  revert x. induction rows as [| [ax r] rows IH]; simpl; intros x Hs.
  - split; [exact Hs | apply Permutation_refl].
  - destruct (row_flip r =? -1)%Z.
    + destruct (IH (np_flip x ax) Hs) as [H1 H2]. split; [exact H1 |].
      eapply Permutation_trans; [exact H2 |].
      eapply ravel_np_flip; eassumption.
    + now apply IH.
Qed.

Lemma argsort_permutation3 (keys : list nat) :
  is_axes_permutation keys 3 = true ->
  is_axes_permutation (argsort keys) 3 = true.
Proof.
  intros H. apply axes_permutation3 in H. cbn [In] in H.
  decompose [or] H; try contradiction; subst keys; reflexivity.
Qed.

Lemma full_orientation_inv (o : ornt) (n : nat) :
  full_orientation o n = true ->
  length o = n /\ is_axes_permutation (map row_axis o) n = true /\
  existsb isnan o = false.
Proof.
  unfold full_orientation. intros H.
  apply andb_true_iff in H as [H1 H2]. apply negb_true_iff in H2.
  repeat split; try assumption.
  unfold is_axes_permutation in H1. apply andb_true_iff in H1 as [H1 _].
  apply Nat.eqb_eq in H1. now rewrite length_map in H1.
Qed.

(** A full orientation applied to a 3D array returns an array with the
    same voxels, its shape permuted. *)
Lemma apply_orientation_3d {V} (x : ndarray V) (o : ornt) (n0 n1 n2 : nat) :
  shape x = [n0; n1; n2] ->
  full_orientation o 3 = true ->
  exists y, apply_orientation x o = OK y /\
            Permutation (shape y) (shape x) /\
            Permutation (ravel y) (ravel x).
Proof.
  intros Hs Ho. apply full_orientation_inv in Ho as (Hlen & Hax & Hnan).
  unfold apply_orientation, ndim. rewrite Hs, Hlen, Hnan. simpl (_ <? _).
  cbv iota.
  destruct (apply_flips_3d (combine (seq 0 3) o) x Hs) as [Hfs Hfr].
  rewrite Hfs. simpl (seq 3 _). rewrite app_nil_r.
  destruct (np_transpose_3d (apply_flips x (combine (seq 0 3) o))
              (argsort (map row_axis o)) Hfs (argsort_permutation3 _ Hax))
    as (y & Hy & Hsh & Hr).
  exists y. split; [exact Hy |]. rewrite Hfs in Hsh. split; [exact Hsh |].
  eapply Permutation_trans; eassumption.
Qed.



(** Whatever the start orientation, a transform to LPS that exists is a
    signed permutation of the three axes. *)
Lemma ornt_transform_lps (junk : orow) (start T : ornt) :
  ornt_transform junk start (axcodes2ornt [AxL; AxP; AxS]) = OK T ->
  signed_permutation T 3 = true.
Proof.
  unfold ornt_transform.
  destruct start as [| r0 [| r1 [| r2 [| r3 start]]]]; try discriminate.
  destruct r0 as [[a0 f0] |], r1 as [[a1 f1] |], r2 as [[a2 f2] |]; simpl;
    repeat match goal with
           | |- context [?a =? ?n] => destruct (Nat.eqb_spec a n); subst; simpl
           end;
    intros H; try discriminate H; injection H as <-;
    repeat match goal with
           | |- context [(?f =? ?g)%Z] => destruct (f =? g)%Z
           end; reflexivity.
Qed.

Lemma full_orientation_to_lps (junk : orow) (start : ornt) :
  full_orientation start 3 = true ->
  exists T, ornt_transform junk start (axcodes2ornt [AxL; AxP; AxS]) = OK T.
Proof.
  intros H. apply full_orientation_inv in H as (_ & Hax & Hnan).
  destruct start as [| [[a0 f0] |] [| [[a1 f1] |] [| [[a2 f2] |] [| r3 start]]]];
    try discriminate.
  apply axes_permutation3 in Hax. cbn [In map row_axis] in Hax.
  decompose [or] Hax; try contradiction;
    match goal with E : _ = _ |- _ => injection E as <- <- <- end;
    eexists; reflexivity.
Qed.

(** ** The orientation transformer *)

Section Reorientation.

Variable junk : orow.
Variable Affine : Type.
Variable voxel : Type.
Variable io_orientation : Affine -> ornt.

Lemma shape_3d {V} (x : ndarray V) :
  ndim x = 3 -> exists n0 n1 n2, shape x = [n0; n1; n2].
Proof.
  unfold ndim. destruct (shape x) as [| n0 [| n1 [| n2 [| n3 s]]]];
    try discriminate. intros _. now exists n0, n1, n2.
Qed.

(** On 3D data [_reorient_to_lps] is the alignment of the data from the
    orientation of the affine to (L, P, S). *)
Lemma reorient_to_lps_is_align (img : Nifti1Image Affine voxel) :
  ndim (get_fdata img) = 3 ->
  _reorient_to_lps junk io_orientation img =
  align_ornt junk (get_fdata img) (io_orientation (affine img))
    (axcodes2ornt [AxL; AxP; AxS]).
Proof.
  intros Hnd. unfold _reorient_to_lps, align_ornt. rewrite Hnd. simpl (negb _).
  destruct (ornt_transform junk _ _) as [T | e]; simpl; [| reflexivity].
  now destruct (apply_orientation (get_fdata img) T).
Qed.

(** C10: for a 3D image, the array [_reorient_to_lps] returns has a shape
    that is a permutation of the input shape and holds exactly the input's
    voxel values (same multiset); and it does return an array whenever the
    affine implies a full orientation of the three axes. *)
Theorem reorient_to_lps_preserves_voxels (img : Nifti1Image Affine voxel) :
  ndim (get_fdata img) = 3 ->
  (full_orientation (io_orientation (affine img)) 3 = true ->
   exists y, _reorient_to_lps junk io_orientation img = OK y) /\
  (forall y, _reorient_to_lps junk io_orientation img = OK y ->
   Permutation (shape y) (shape (get_fdata img)) /\
   Permutation (ravel y) (ravel (get_fdata img))).
Proof.
  intros Hnd. destruct (shape_3d _ Hnd) as (n0 & n1 & n2 & Hs).
  unfold _reorient_to_lps. rewrite Hnd. simpl (negb _).
  split.
  - intros Hfull.
    destruct (full_orientation_to_lps junk _ Hfull) as (T & HT).
    rewrite HT. simpl bind.
    apply ornt_transform_lps in HT.
    unfold signed_permutation in HT. apply andb_true_iff in HT as [HT _].
    destruct (apply_orientation_3d (get_fdata img) T Hs HT) as (y & Hy & _).
    exists y. now rewrite Hy.
  - intros y H.
    apply bind_OK_inv in H as (T & HT & H).
    apply bind_OK_inv in H as (y' & Hy' & H). injection H as <-.
    apply ornt_transform_lps in HT.
    unfold signed_permutation in HT. apply andb_true_iff in HT as [HT _].
    destruct (apply_orientation_3d (get_fdata img) T Hs HT) as (y & Hy & Hp).
    rewrite Hy in Hy'. injection Hy' as <-. exact Hp.
Qed.

(** C5: a volume whose affine implies the axis codes (R, A, S) is
    reoriented to (L, P, S) by reversing the first two array axes and leaving
    the third as it is; voxel (0,0,0) of the input is voxel
    (shape0-1, shape1-1, 0) of the output. *)
Theorem reorient_ras_to_lps (img : Nifti1Image Affine voxel) (n0 n1 n2 : nat) :
  io_orientation (affine img) = axcodes2ornt [AxR; AxA; AxS] ->
  shape (get_fdata img) = [n0; n1; n2] ->
  exists y,
    _reorient_to_lps junk io_orientation img = OK y /\
    array_equal y (np_flip (np_flip (get_fdata img) 0) 1) /\
    shape y = [n0; n1; n2] /\
    (forall i j k, i < n0 -> j < n1 -> k < n2 ->
       item y [i; j; k] = item (get_fdata img) [n0 - 1 - i; n1 - 1 - j; k]) /\
    (0 < n0 -> 0 < n1 -> 0 < n2 ->
       item y [n0 - 1; n1 - 1; 0] = item (get_fdata img) [0; 0; 0]).
Proof.
  intros Hio Hs.
  unfold _reorient_to_lps. rewrite Hio.
  unfold ndim, apply_orientation, np_transpose, ndim. simpl. rewrite Hs. simpl.
  eexists. split; [reflexivity |].
  unfold array_equal. simpl. rewrite Hs.
  repeat split.
  - intros idx Hb. apply in_ndindex, in_ndindex3 in Hb.
    destruct Hb as (i & j & k & -> & _). reflexivity.
  - intros. f_equal. repeat f_equal; lia.
Qed.

End Reorientation.

(** ** Round trips between orientations *)

Lemma unit_flip_inv (a : nat) (f : Z) :
  unit_flip (Some (a, f)) = true -> f = 1%Z \/ f = (-1)%Z.
Proof.
  unfold unit_flip; simpl. intros H. apply orb_true_iff in H as [H | H];
    apply Z.eqb_eq in H; auto.
Qed.

Lemma signed_permutation3_inv (T : ornt) :
  signed_permutation T 3 = true ->
  exists a0 a1 a2 f0 f1 f2,
    T = [Some (a0, f0); Some (a1, f1); Some (a2, f2)] /\
    In [a0; a1; a2] [[0; 1; 2]; [0; 2; 1]; [1; 0; 2]; [1; 2; 0]; [2; 0; 1]; [2; 1; 0]] /\
    (f0 = 1 \/ f0 = -1)%Z /\ (f1 = 1 \/ f1 = -1)%Z /\ (f2 = 1 \/ f2 = -1)%Z.
Proof.
  unfold signed_permutation. intros H. apply andb_true_iff in H as [Hfull Hflip].
  apply full_orientation_inv in Hfull as (_ & Hax & Hnan).
  destruct T as [| [[a0 f0] |] [| [[a1 f1] |] [| [[a2 f2] |] [| r3 T]]]];
    try discriminate.
  exists a0, a1, a2, f0, f1, f2. split; [reflexivity |].
  split; [exact (axes_permutation3 _ Hax) |].
  simpl in Hflip.
  apply andb_true_iff in Hflip as [H0 Hflip].
  apply andb_true_iff in Hflip as [H1 Hflip].
  apply andb_true_iff in Hflip as [H2 _].
  repeat split; eapply unit_flip_inv; eassumption.
Qed.

(** Applying a signed permutation of the axes and then its inverse gives
    the array back. *)
Lemma apply_orientation_round_trip {V} (x : ndarray V) (T : ornt) (n0 n1 n2 : nat) :
  shape x = [n0; n1; n2] ->
  signed_permutation T 3 = true ->
  exists y x',
    apply_orientation x T = OK y /\
    apply_orientation y (invert_ornt T) = OK x' /\
    array_equal x' x.
Proof.
  intros Hs HT.
  apply signed_permutation3_inv in HT
    as (a0 & a1 & a2 & f0 & f1 & f2 & -> & Hax & H0 & H1 & H2).
  cbn [In] in Hax.
  decompose [or] Hax; try contradiction;
    match goal with E : _ = _ |- _ => injection E as <- <- <- end;
    destruct H0 as [-> | ->], H1 as [-> | ->], H2 as [-> | ->];
    unfold apply_orientation, np_transpose, ndim; simpl; rewrite Hs; simpl;
    (do 2 eexists; split; [reflexivity | split; [reflexivity |]]);
    unfold array_equal; simpl; rewrite Hs; (split; [reflexivity |]);
    intros idx Hb; apply in_ndindex, in_ndindex3 in Hb;
    destruct Hb as (i & j & k & -> & Hi & Hj & Hk); simpl;
    f_equal; repeat (f_equal; try lia).
Qed.

(** The transforms between two axis-code triples are inverse to each other. *)
Lemma ornt_transform_axcodes (junk : orow) (A B : list axcode) :
  valid_axcodes A = true -> valid_axcodes B = true ->
  exists T,
    ornt_transform junk (axcodes2ornt A) (axcodes2ornt B) = OK T /\
    signed_permutation T 3 = true /\
    ornt_transform junk (axcodes2ornt B) (axcodes2ornt A) = OK (invert_ornt T).
Proof.
  intros HA HB.
  destruct A as [| a0 [| a1 [| a2 [| a3 A]]]]; try discriminate HA.
  destruct a0, a1, a2; try discriminate HA; clear HA;
    (destruct B as [| b0 [| b1 [| b2 [| b3 B]]]]; try discriminate HB;
     destruct b0, b1, b2; try discriminate HB; clear HB;
     (eexists; split; [reflexivity | split; reflexivity])).
Qed.

(** A triple that repeats an anatomical axis is no orientation: no
    transform leads from it to (L, P, S). *)
Remark align_repeated_axis_raises :
  align None sample_volume [AxL; AxL; AxS] [AxL; AxP; AxS] =
  Raise (ValueError "Unable to find out axis in start_ornt").
Proof. reflexivity. Qed.

(** C4: aligning a 3D array from orientation A to orientation B and back
    from B to A returns the original array, for every pair of axis-code
    triples that name each anatomical axis once. *)
Theorem orientation_round_trip (junk : orow) {voxel : Type} (x : ndarray voxel)
    (A B : list axcode) :
  ndim x = 3 ->
  valid_axcodes A = true ->
  valid_axcodes B = true ->
  exists y x',
    align junk x A B = OK y /\
    align junk y B A = OK x' /\
    array_equal x' x.
Proof.
  intros Hnd HA HB.
  destruct (shape_3d _ Hnd) as (n0 & n1 & n2 & Hs).
  destruct (ornt_transform_axcodes junk A B HA HB) as (T & HAB & HT & HBA).
  unfold align, align_ornt. rewrite HAB, HBA. simpl bind.
  exact (apply_orientation_round_trip x T Hs HT).
Qed.

(** ** The RT-Struct exporter *)

Section ExporterProperties.

Variable junk : orow.
Variable Affine : Type.
Variable voxel : Type.
Variable io_orientation : Affine -> ornt.
Variable voxel_eqb : voxel -> Z -> bool.
Variable create_new_error : string -> option exn.
Variable add_roi_error : RTStruct -> ndarray Z -> string -> option exn.

Local Abbreviation loop := (add_classes voxel_eqb add_roi_error).
Local Abbreviation present := (class_present voxel_eqb).
Local Abbreviation entry_of := (class_roi voxel_eqb).
Local Abbreviation export :=
  (save_mask_as_rtstruct junk io_orientation voxel_eqb create_new_error add_roi_error).
Local Abbreviation reorient := (_reorient_to_lps junk io_orientation).

(** The loop writes nothing, and a document it returns is the one it was
    given followed by the entries of the classes that have a voxel, in the
    order of the class map. *)
Lemma add_classes_spec (sf : ndarray voxel) (items : list (Z * string)) :
  forall (rt : RTStruct) (w : saved_files),
    snd (loop sf items rt w) = w /\
    forall rt', fst (loop sf items rt w) = OK rt' ->
      series_path rt' = series_path rt /\
      rois rt' = rois rt ++ map (entry_of sf) (filter (fun e => present sf (fst e)) items).
Proof.
  induction items as [| [k name] items IH]; intros rt w; simpl.
  - split; [reflexivity |]. intros rt' H. injection H as <-.
    now rewrite app_nil_r.
  - unfold class_present. simpl fst.
    destruct (np_any (class_mask voxel_eqb sf k)); cbn [negb].
    + unfold mbind, lift, add_roi.
      destruct (add_roi_error rt _ name) as [e |].
      * split; [reflexivity | discriminate].
      * match goal with |- context [loop sf items ?r w] =>
          destruct (IH r w) as [Hw Hr] end.
        split; [exact Hw |]. intros rt' H.
        destruct (Hr rt' H) as [H1 H2]. simpl in H1, H2.
        split; [exact H1 |]. rewrite H2, <- app_assoc. reflexivity.
    + apply IH.
Qed.

Lemma add_classes_app (sf : ndarray voxel) (pre post : list (Z * string))
    (rt : RTStruct) (w : saved_files) :
  loop sf (pre ++ post) rt w =
  (rt' <-- loop sf pre rt ;; loop sf post rt')%monad w.
Proof.
  revert rt. induction pre as [| [k name] pre IH]; intros rt; simpl.
  - reflexivity.
  - destruct (negb (np_any (class_mask voxel_eqb sf k))).
    + apply IH.
    + unfold mbind at 1 3. unfold lift.
      destruct (add_roi add_roi_error rt _ name) as [rt1 | e]; [apply IH | reflexivity].
Qed.

(** A successful export wrote one file, whose entries are those of the
    classes with a voxel. *)
Lemma save_mask_as_rtstruct_OK (img : Nifti1Image Affine voxel)
    (classes : list (Z * string)) (ref out : string) (w w' : saved_files) :
  export (PyNifti1Image img) classes ref out w = (OK tt, w') ->
  exists lps sf doc,
    reorient img = OK lps /\
    np_transpose lps [2; 1; 0] = OK sf /\
    w' = w ++ [(out, doc)] /\
    series_path doc = ref /\
    rois doc = map (entry_of sf) (filter (fun e => present sf (fst e)) classes).
Proof.
  unfold save_mask_as_rtstruct, mbind, lift, create_new, save.
  destruct (reorient img) as [lps | e]; [| discriminate].
  destruct (np_transpose lps [2; 1; 0]) as [sf | e] eqn:Hsf; [| discriminate].
  destruct (create_new_error ref) as [e |]; [discriminate |].
  match goal with |- context [loop sf classes ?r w] =>
    destruct (add_classes_spec sf classes r w) as [Hw Hr];
    destruct (loop sf classes r w) as [[doc | e] w1] end;
    [| discriminate].
  simpl in Hw. subst w1. intros H. injection H as <-.
  destruct (Hr doc eq_refl) as [H1 H2]. simpl in H1, H2.
  exists lps, sf, doc. repeat split; assumption || reflexivity.
Qed.

Lemma np_any_true (m : ndarray bool) :
  np_any m = true <-> exists idx, in_bounds (shape m) idx /\ item m idx = true.
Proof.
  unfold np_any. rewrite existsb_exists.
  split; intros (idx & H1 & H2); exists idx; split; try assumption;
    now apply in_ndindex.
Qed.

Lemma class_present_true (sf : ndarray voxel) (k : Z) :
  present sf k = true <->
  exists idx, in_bounds (shape sf) idx /\ voxel_eqb (item sf idx) k = true.
Proof.
  unfold class_present. now rewrite np_any_true.
Qed.

Lemma class_present_false (sf : ndarray voxel) (k : Z) :
  (forall idx, in_bounds (shape sf) idx -> voxel_eqb (item sf idx) k = false) ->
  present sf k = false.
Proof.
  intros H. destruct (present sf k) eqn:E; [| reflexivity].
  apply class_present_true in E as (idx & Hb & Hv).
  rewrite (H idx Hb) in Hv. discriminate.
Qed.

(** The mask of an entry that was written has a voxel set. *)
Lemma class_roi_not_empty (sf : ndarray voxel) (e : Z * string) :
  present sf (fst e) = true ->
  exists idx, in_bounds (shape (roi_mask (entry_of sf e))) idx /\
              item (roi_mask (entry_of sf e)) idx = 1%Z.
Proof.
  intros H. apply class_present_true in H as (idx & Hb & Hv).
  exists idx. split; [exact Hb |]. simpl. now rewrite Hv.
Qed.

(** C3: when no voxel of the reoriented, axis-reordered volume equals a
    class index [k] of the class map, the exported document has no entry for
    [k]: its entries are those of the classes that have a voxel, [k] is not
    one of them, every entry written has a non-empty mask, none carries the
    (empty) mask of [k], and none is named for [k] unless another class that
    is present shares the name. *)
Theorem empty_class_skipped (img : Nifti1Image Affine voxel)
    (classes : list (Z * string)) (ref out : string) (w w' : saved_files)
    (k : Z) (name : string) :
  save_mask_as_rtstruct junk io_orientation voxel_eqb create_new_error add_roi_error
    (PyNifti1Image img) classes ref out w = (OK tt, w') ->
  In (k, name) classes ->
  (forall lps sf idx,
     _reorient_to_lps junk io_orientation img = OK lps ->
     np_transpose lps [2; 1; 0] = OK sf ->
     in_bounds (shape sf) idx -> voxel_eqb (item sf idx) k = false) ->
  exists lps sf doc,
    _reorient_to_lps junk io_orientation img = OK lps /\
    np_transpose lps [2; 1; 0] = OK sf /\
    w' = w ++ [(out, doc)] /\
    rois doc = map (class_roi voxel_eqb sf)
                   (filter (fun e => class_present voxel_eqb sf (fst e)) classes) /\
    ~ In (k, name) (filter (fun e => class_present voxel_eqb sf (fst e)) classes) /\
    (forall r, In r (rois doc) ->
       exists idx, in_bounds (shape (roi_mask r)) idx /\ item (roi_mask r) idx = 1%Z) /\
    (forall r, In r (rois doc) ->
       ~ array_equal (roi_mask r) (roi_mask (class_roi voxel_eqb sf (k, name)))) /\
    ((forall k', In (k', name) classes -> class_present voxel_eqb sf k' = false) ->
     ~ In name (map roi_name (rois doc))).
Proof.
  intros Hrun Hin Hvox.
  apply save_mask_as_rtstruct_OK in Hrun
    as (lps & sf & doc & Hlps & Hsf & Hw & _ & Hrois).
  pose proof (@class_present_false sf k (fun idx => Hvox lps sf idx Hlps Hsf)) as Habs.
  assert (Hne : forall r, In r (rois doc) ->
            exists idx, in_bounds (shape (roi_mask r)) idx /\
                        item (roi_mask r) idx = 1%Z).
  { intros r Hr. rewrite Hrois in Hr.
    apply in_map_iff in Hr as (e & <- & He). apply filter_In in He as [_ He].
    now apply class_roi_not_empty. }
  exists lps, sf, doc. repeat split; try assumption.
  - intros H. apply filter_In in H as [_ H]. simpl in H. congruence.
  - intros r Hr [Hshape Hitem].
    destruct (Hne r Hr) as (idx & Hb & H1).
    rewrite (Hitem idx Hb) in H1. simpl in H1, Hb.
    unfold class_mask in H1. simpl in H1. rewrite Hshape in Hb. simpl in Hb.
    rewrite (Hvox lps sf idx Hlps Hsf Hb) in H1. discriminate.
  - intros Hall Hn. rewrite Hrois, map_map in Hn.
    apply in_map_iff in Hn as ([k' n'] & E & He). simpl in E. subst n'.
    apply filter_In in He as [He Hp]. simpl in Hp.
    rewrite (Hall k' He) in Hp. discriminate.
Qed.


(** C8: the export writes its output at most once, after the whole class
    map has been processed.  Either it returns, and then it appended exactly
    one file at [output_path] holding the entries of all the classes that
    have a voxel; or it raises, and then it wrote nothing.  When contour
    construction fails for a class, that error is what the export raises. *)
Theorem export_is_atomic (img : Nifti1Image Affine voxel)
    (classes : list (Z * string)) (ref out : string) (w : saved_files) :
  ((exists lps sf doc,
      _reorient_to_lps junk io_orientation img = OK lps /\
      np_transpose lps [2; 1; 0] = OK sf /\
      rois doc = map (class_roi voxel_eqb sf)
                     (filter (fun e => class_present voxel_eqb sf (fst e)) classes) /\
      save_mask_as_rtstruct junk io_orientation voxel_eqb create_new_error add_roi_error
        (PyNifti1Image img) classes ref out w = (OK tt, w ++ [(out, doc)]))
   \/
   (exists e,
      save_mask_as_rtstruct junk io_orientation voxel_eqb create_new_error add_roi_error
        (PyNifti1Image img) classes ref out w = (Raise e, w)))
  /\
  (forall lps sf pre k name post doc e,
     _reorient_to_lps junk io_orientation img = OK lps ->
     np_transpose lps [2; 1; 0] = OK sf ->
     create_new_error ref = None ->
     classes = pre ++ (k, name) :: post ->
     fst (add_classes voxel_eqb add_roi_error sf pre
            {| series_path := ref; rois := [] |} w) = OK doc ->
     class_present voxel_eqb sf k = true ->
     add_roi_error doc (np_map uint8_of_bool (class_mask voxel_eqb sf k)) name = Some e ->
     save_mask_as_rtstruct junk io_orientation voxel_eqb create_new_error add_roi_error
       (PyNifti1Image img) classes ref out w = (Raise e, w)).
Proof.
  split.
  - destruct (export (PyNifti1Image img) classes ref out w) as [[[] | e] w'] eqn:Hrun.
    + left. apply save_mask_as_rtstruct_OK in Hrun
        as (lps & sf & doc & Hlps & Hsf & -> & _ & Hrois).
      exists lps, sf, doc. auto.
    + right. exists e. f_equal.
      revert Hrun. unfold save_mask_as_rtstruct, mbind, lift, create_new, save.
      destruct (reorient img) as [lps | e1]; [| now intros [= _ <-]].
      destruct (np_transpose lps [2; 1; 0]) as [sf | e1]; [| now intros [= _ <-]].
      destruct (create_new_error ref) as [e1 |]; [now intros [= _ <-] |].
      match goal with |- context [loop sf classes ?r w] =>
        pose proof (proj1 (add_classes_spec sf classes r w)) as Hw;
        destruct (loop sf classes r w) as [[doc | e1] w1] end;
        simpl in Hw; subst w1; [discriminate | now intros [= _ <-]].
  - intros lps sf pre k name post doc e Hlps Hsf Hnew -> Hpre Hp Herr.
    unfold save_mask_as_rtstruct, mbind at 1 2 3, lift, create_new.
    rewrite Hlps, Hsf, Hnew. unfold mbind at 1.
    rewrite add_classes_app. unfold mbind at 1.
    pose proof (proj1 (add_classes_spec sf pre {| series_path := ref; rois := [] |} w)) as Hw.
    destruct (loop sf pre {| series_path := ref; rois := [] |} w) as [r w1].
    simpl in Hpre, Hw. subst r w1.
    simpl. unfold class_present in Hp. rewrite Hp. simpl.
    unfold mbind, lift, add_roi. rewrite Herr. reflexivity.
Qed.


End ExporterProperties.

(** ** Strings *)

Lemma append_nil_r (s : string) : (s ++ "")%string = s.
Proof. induction s as [| c s IH]; simpl; [reflexivity | now rewrite IH]. Qed.

Lemma append_assoc (a b c : string) : ((a ++ b) ++ c)%string = (a ++ (b ++ c))%string.
Proof. induction a as [| x a IH]; simpl; [reflexivity | now rewrite IH]. Qed.

Lemma length_append (a b : string) :
  String.length (a ++ b) = String.length a + String.length b.
Proof. induction a as [| x a IH]; simpl; [reflexivity | now rewrite IH]. Qed.

Lemma substring_prefix (a b : string) :
  substring 0 (String.length a) (a ++ b) = a.
Proof.
  induction a as [| x a IH]; simpl.
  - now destruct b.
  - now rewrite IH.
Qed.

Lemma drop_last_append (n : nat) (a b : string) :
  String.length b = n -> drop_last n (a ++ b) = a.
Proof.
  intros <-. unfold drop_last. rewrite length_append.
  replace (String.length a + String.length b - String.length b) with (String.length a) by lia.
  apply substring_prefix.
Qed.

Lemma endswith_append (s suffix : string) :
  endswith s suffix = true -> exists pre, s = (pre ++ suffix)%string.
Proof.
  induction s as [| c s IH]; intros H.
  - destruct suffix; [now exists "" | discriminate].
  - change (((String c s =? suffix)%string || endswith s suffix) = true) in H.
    apply orb_true_iff in H as [H | H].
    + apply String.eqb_eq in H. now exists "".
    + destruct (IH H) as (pre & ->). now exists (String c pre).
Qed.

Lemma last_char_append (a b : string) :
  b <> "" -> last_char (a ++ b) = last_char b.
Proof.
  intros Hb. induction a as [| c a IH]; simpl; [reflexivity |].
  rewrite <- IH. destruct (a ++ b)%string eqn:E; [| reflexivity].
  destruct a; simpl in E; [congruence | discriminate].
Qed.

(** A file whose name ends in [.nii.gz] is not a [.json] sidecar. *)
Lemma nii_is_not_json (p : Path) (stem : string) :
  endswith (name p) ".nii.gz" = true -> str p <> (stem ++ ".json")%string.
Proof.
  intros H E. apply endswith_append in H as (pre & Hpre).
  apply (f_equal last_char) in E. unfold str in E. rewrite Hpre in E.
  rewrite <- !append_assoc in E.
  rewrite !last_char_append in E by discriminate.
  discriminate.
Qed.

(** ** File listings *)

Lemma filter_filter {X} (f g : X -> bool) (l : list X) :
  filter f (filter g l) = filter (fun x => g x && f x) l.
Proof.
  induction l as [| x l IH]; simpl; [reflexivity |].
  destruct (g x); simpl; [destruct (f x) |]; now rewrite IH.
Qed.

Lemma filter_none {X} (f : X -> bool) (l : list X) :
  (forall x, In x l -> f x = false) -> filter f l = [].
Proof.
  induction l as [| x l IH]; simpl; intros H; [reflexivity |].
  rewrite (H x (or_introl eq_refl)). apply IH. intros y Hy. apply H. now right.
Qed.

Lemma filter_all {X} (f : X -> bool) (l : list X) :
  (forall x, In x l -> f x = true) -> filter f l = l.
Proof.
  intros H. apply forallb_filter_id, forallb_forall, H.
Qed.

Lemma remove_files_nil (l : list Path) : remove_files [] l = l.
Proof. unfold remove_files. simpl. apply filter_true. Qed.

Lemma remove_files_cons (a : Path) (gone l : list Path) :
  remove_files (a :: gone) l =
  remove_files gone (filter (fun q => negb (is_file (str a) q)) l).
Proof.
  unfold remove_files. rewrite filter_filter. apply filter_ext.
  intros q. simpl. now rewrite negb_orb.
Qed.

Lemma remove_files_comm_filter (f : Path -> bool) (gone l : list Path) :
  filter f (remove_files gone l) = remove_files gone (filter f l).
Proof.
  unfold remove_files. rewrite !filter_filter. apply filter_ext.
  intros q. apply andb_comm.
Qed.

Lemma NoDup_str_filter (f : Path -> bool) (l : list Path) :
  NoDup (map str l) -> NoDup (map str (filter f l)).
Proof.
  induction l as [| x l IH]; simpl; intros H; [constructor |].
  inversion H as [| ? ? Hx Hl]; subst.
  destruct (f x); simpl; [constructor |]; auto.
  intros Hin. apply Hx. apply in_map_iff in Hin as (y & E & Hy).
  apply filter_In in Hy as [Hy _]. apply in_map_iff. now exists y.
Qed.

Lemma NoDup_str_remove_files (gone l : list Path) :
  NoDup (map str l) -> NoDup (map str (remove_files gone l)).
Proof. apply NoDup_str_filter. Qed.

Lemma matches_none (gone : list Path) (q : Path) :
  ~ In (str q) (map str gone) ->
  existsb (fun g => is_file (str g) q) gone = false.
Proof.
  intros H. destruct (existsb _ gone) eqn:E; [| reflexivity].
  apply existsb_exists in E as (g & Hg & E). unfold is_file in E.
  apply String.eqb_eq in E. exfalso. apply H. rewrite E. now apply in_map.
Qed.

(** Removing the tail of a duplicate-free listing leaves its head. *)
Lemma remove_files_tail (a : Path) (rest : list Path) :
  NoDup (map str (a :: rest)) -> remove_files rest (a :: rest) = [a].
Proof.
  intros H. inversion H as [| ? ? Ha Hrest]; subst.
  unfold remove_files. simpl. rewrite (matches_none rest a Ha). simpl. f_equal.
  apply filter_none. intros q Hq. apply negb_false_iff, existsb_exists.
  exists q. split; [exact Hq |]. apply String.eqb_refl.
Qed.

Lemma exists_after_remove (a p : Path) (l : list Path) :
  str p <> str a ->
  existsb (is_file (str p)) l = true ->
  existsb (is_file (str p)) (filter (fun q => negb (is_file (str a) q)) l) = true.
Proof.
  intros Hne H. apply existsb_exists in H as (q & Hq & E).
  apply existsb_exists. exists q. split; [| exact E].
  apply filter_In. split; [exact Hq |].
  unfold is_file in *. apply String.eqb_eq in E. rewrite E.
  apply negb_true_iff, String.eqb_neq. exact Hne.
Qed.

Lemma exists_in_listing (p : Path) (l : list Path) :
  In p l -> existsb (is_file (str p)) l = true.
Proof.
  intros H. apply existsb_exists. exists p. split; [exact H |]. apply String.eqb_refl.
Qed.

(** ** The legacy converter *)

Lemma world_eta (w : world) : {| files := files w; stdout := stdout w |} = w.
Proof. now destruct w. Qed.

Lemma remaining_exist (a : Path) (l : list Path) (fs : list Path) :
  NoDup (map str (a :: l)) ->
  (forall p, In p (a :: l) -> existsb (is_file (str p)) fs = true) ->
  forall p, In p l ->
    existsb (is_file (str p)) (filter (fun q => negb (is_file (str a) q)) fs) = true.
Proof.
  intros Hnd Hex p Hp. inversion Hnd as [| ? ? Ha _]; subst.
  apply exists_after_remove; [| apply Hex; now right].
  intros E. apply Ha. rewrite <- E. now apply in_map.
Qed.

(** The loop that removes the candidates with ROI in their name: every
    removal finds its file. *)
Lemma remove_roi_loop (l : list Path) :
  forall w,
    NoDup (map str l) ->
    (forall p, In p l -> existsb (is_file (str p)) (files w) = true) ->
    for_each l remove_if_roi w =
    (OK tt, {| files := remove_files (filter is_roi l) (files w);
               stdout := stdout w ++
                         map (fun p => Text ("Skipped: " ++ name p)) (filter is_roi l) |}).
Proof.
  induction l as [| a l IH]; intros w Hnd Hex.
  - simpl. unfold ret. now rewrite remove_files_nil, app_nil_r, world_eta.
  - cbn [for_each filter]. unfold mbind at 1, remove_if_roi at 1.
    change (contains "ROI" (name a)) with (is_roi a).
    destruct (is_roi a).
    + unfold mbind, os_remove, print.
      rewrite (Hex a (or_introl eq_refl)). cbn [files stdout].
      rewrite IH.
      * cbn [files stdout map]. rewrite remove_files_cons, <- app_assoc. reflexivity.
      * now inversion Hnd.
      * cbn [files]. now apply remaining_exist.
    + unfold ret. apply IH; [now inversion Hnd |].
      intros p Hp. apply Hex. now right.
Qed.

(** The loop that removes all but the first candidate. *)
Lemma remove_loop (l : list Path) :
  forall w,
    NoDup (map str l) ->
    (forall p, In p l -> existsb (is_file (str p)) (files w) = true) ->
    for_each l (fun nii_file => os_remove (str nii_file)) w =
    (OK tt, {| files := remove_files l (files w); stdout := stdout w |}).
Proof.
  induction l as [| a l IH]; intros w Hnd Hex.
  - simpl. unfold ret. now rewrite remove_files_nil, world_eta.
  - cbn [for_each]. unfold mbind, os_remove.
    rewrite (Hex a (or_introl eq_refl)).
    rewrite IH.
    + cbn [files stdout]. now rewrite remove_files_cons.
    + now inversion Hnd.
    + cbn [files]. now apply remaining_exist.
Qed.

Lemma NoDup_str_tl (l : list Path) : NoDup (map str l) -> NoDup (map str (tl l)).
Proof. destruct l; simpl; intros H; [exact H | now inversion H]. Qed.

Lemma NoDup_str_inj (l : list Path) (a b : Path) :
  NoDup (map str l) -> In a l -> In b l -> str a = str b -> a = b.
Proof.
  induction l as [| x l IH]; simpl; intros Hnd Ha Hb E; [contradiction |].
  inversion Hnd as [| ? ? Hx Hl]; subst.
  destruct Ha as [<- | Ha], Hb as [<- | Hb]; auto.
  - exfalso. apply Hx. rewrite E. now apply in_map.
  - exfalso. apply Hx. rewrite <- E. now apply in_map.
Qed.

(** Removing the selected files of a duplicate-free listing keeps the rest. *)
Lemma remove_files_selected (sel : Path -> bool) (l : list Path) :
  NoDup (map str l) ->
  remove_files (filter sel l) l = filter (fun p => negb (sel p)) l.
Proof.
  intros Hnd. unfold remove_files. apply filter_ext_in. intros q Hq. f_equal.
  destruct (sel q) eqn:Hs.
  - apply existsb_exists. exists q. split; [now apply filter_In |].
    apply String.eqb_refl.
  - destruct (existsb _ (filter sel l)) eqn:E; [| reflexivity].
    apply existsb_exists in E as (g & Hg & E). apply filter_In in Hg as [Hg Hsg].
    unfold is_file in E. apply String.eqb_eq in E.
    rewrite (NoDup_str_inj l q g Hnd Hq Hg E) in Hs. congruence.
Qed.

Lemma mbind_OK {W X Y} (m : M W X) (k : X -> M W Y) (w w' : W) (x : X) :
  m w = (OK x, w') -> mbind m k w = k x w'.
Proof. unfold mbind. now intros ->. Qed.

(** Lines 104 to 128 on a listing where the expected output exists: the
    candidates are disambiguated without error, then the sidecar is removed. *)
Lemma select_volume_spec (output_path : Path) (w : world) :
  NoDup (map str (files w)) ->
  existsb (is_file (str output_path)) (files w) = true ->
  select_volume output_path w =
  os_remove (sidecar output_path) (disambiguated (parent output_path) w).
Proof.
  intros Hnd Hex. unfold select_volume.
  rewrite (mbind_OK _ _ w (x := true) (w' := w)) by (unfold path_exists; now rewrite Hex).
  cbn [negb]. rewrite (mbind_OK _ _ w (x := tt) (w' := w)) by reflexivity.
  rewrite (mbind_OK _ _ w (x := candidates (parent output_path) w) (w' := w)) by reflexivity.
  unfold disambiguated.
  set (cands := candidates (parent output_path) w).
  assert (Hc : NoDup (map str cands)) by now apply NoDup_str_filter.
  assert (Hcin : forall p, In p cands -> In p (files w)).
  { intros p Hp. now apply filter_In in Hp. }
  set (w1 := {| files := remove_files (if 1 <? length cands then filter is_roi cands else [])
                           (files w);
                stdout := stdout w ++
                  (if 1 <? length cands then
                     Text "WARNING: Dicom to nifti resulted in several nifti files. Skipping files which contain ROI in filename."
                     :: map (fun p => Text ("Skipped: " ++ name p)) (filter is_roi cands)
                   else []) |}).
  rewrite (mbind_OK _ _ w (x := tt) (w' := w1)).
  2:{ unfold when, w1. destruct (1 <? length cands).
      - unfold mbind, print. rewrite remove_roi_loop; cbn [files stdout].
        + now rewrite <- app_assoc.
        + exact Hc.
        + intros p Hp. now apply exists_in_listing, Hcin.
      - unfold ret. now rewrite remove_files_nil, app_nil_r, world_eta. }
  set (kept := if 1 <? length cands then filter not_roi cands else cands).
  assert (Hk : candidates (parent output_path) w1 = kept).
  { unfold candidates, w1, kept. cbn [files].
    rewrite remove_files_comm_filter. fold (candidates (parent output_path) w). fold cands.
    destruct (1 <? length cands).
    - now apply remove_files_selected.
    - apply remove_files_nil. }
  rewrite (mbind_OK _ _ w1 (x := kept) (w' := w1)) by (unfold glob_nii; now rewrite <- Hk).
  assert (Hkn : NoDup (map str kept)).
  { rewrite <- Hk. apply NoDup_str_filter. unfold w1. cbn [files].
    now apply NoDup_str_remove_files. }
  match goal with |- _ = os_remove _ ?x => set (w2 := x) end.
  rewrite (mbind_OK _ _ w1 (x := tt) (w' := w2)); [reflexivity |].
  unfold when, w2. destruct (1 <? length kept).
  - unfold mbind, print. rewrite remove_loop; cbn [files stdout].
    + unfold w1. cbn [files stdout]. destruct (1 <? length cands);
        now rewrite <- !app_assoc.
    + now apply NoDup_str_tl.
    + intros p Hp. apply exists_in_listing.
      assert (Hp' : In p kept) by (destruct kept; [contradiction | now right]).
      rewrite <- Hk in Hp'. now apply filter_In in Hp'.
  - unfold ret, w1. cbn [files stdout]. rewrite remove_files_nil, app_nil_r.
    destruct (1 <? length cands); reflexivity.
Qed.

Lemma existsb_filter_keep {X} (f h : X -> bool) (l : list X) :
  (forall q, In q l -> f q = true -> h q = true) ->
  existsb f (filter h l) = existsb f l.
Proof.
  induction l as [| x l IH]; simpl; intros H; [reflexivity |].
  rewrite <- IH by (intros q Hq; apply H; now right).
  destruct (h x) eqn:Hh; simpl; [reflexivity |].
  destruct (f x) eqn:Hf; [| reflexivity].
  rewrite (H x (or_introl eq_refl) Hf) in Hh. discriminate.
Qed.

Lemma existsb_filter_out {X} (f : X -> bool) (l : list X) :
  existsb f (filter (fun q => negb (f q)) l) = false.
Proof.
  induction l as [| x l IH]; simpl; [reflexivity |].
  destruct (f x) eqn:Hf; simpl; [| rewrite Hf]; exact IH.
Qed.

(** Removing volume files does not touch a [.json] file. *)
Lemma json_survives (stem : string) (gone l : list Path) :
  (forall g, In g gone -> endswith (name g) ".nii.gz" = true) ->
  existsb (is_file (stem ++ ".json")) (remove_files gone l) =
  existsb (is_file (stem ++ ".json")) l.
Proof.
  intros Hg. apply existsb_filter_keep. intros q _ Hq.
  apply negb_true_iff. destruct (existsb _ gone) eqn:E; [| reflexivity].
  apply existsb_exists in E as (g & Hin & E).
  unfold is_file in *. apply String.eqb_eq in Hq, E.
  exfalso. apply (nii_is_not_json g stem (Hg g Hin)). congruence.
Qed.

Lemma candidates_are_nii (dir : string) (w : world) (p : Path) :
  In p (candidates dir w) -> endswith (name p) ".nii.gz" = true.
Proof.
  intros H. apply filter_In in H as [_ H]. unfold is_nii_in in H.
  now apply andb_true_iff in H as [_ H].
Qed.

(** The candidates left once the ROI-named ones are gone. *)
Lemma candidates_after_roi (dir : string) (w : world) :
  NoDup (map str (files w)) ->
  let cands := candidates dir w in
  filter (is_nii_in dir)
    (remove_files (if 1 <? length cands then filter is_roi cands else []) (files w)) =
  (if 1 <? length cands then filter not_roi cands else cands).
Proof.
  intros Hnd cands. rewrite remove_files_comm_filter.
  fold (candidates dir w). fold cands.
  destruct (1 <? length cands).
  - apply remove_files_selected. now apply NoDup_str_filter.
  - apply remove_files_nil.
Qed.

Lemma firstn_1_short {X} (l : list X) : length l <= 1 -> firstn 1 l = l.
Proof. destruct l as [| x [| y l]]; simpl; intros H; [reflexivity .. | lia]. Qed.


(** The candidates the disambiguation leaves. *)
Lemma candidates_disambiguated (dir : string) (w : world) :
  NoDup (map str (files w)) ->
  candidates dir (disambiguated dir w) =
  (if 1 <? length (candidates dir w)
   then firstn 1 (filter not_roi (candidates dir w))
   else candidates dir w).
Proof.
  intros Hnd. unfold candidates at 1, disambiguated. cbn [files].
  rewrite remove_files_comm_filter, (candidates_after_roi dir w Hnd).
  cbv zeta.
  assert (Hk : NoDup (map str (filter not_roi (candidates dir w)))).
  { now apply NoDup_str_filter, NoDup_str_filter. }
  destruct (1 <? length (candidates dir w)) eqn:Hs.
  - destruct (filter not_roi (candidates dir w)) as [| a [| b rest]] eqn:Ek.
    + reflexivity.
    + reflexivity.
    + cbn [length Nat.ltb Nat.leb tl firstn]. now apply remove_files_tail.
  - rewrite Hs. apply remove_files_nil.
Qed.

Lemma candidates_without_json (dir stem : string) (l : list Path) :
  filter (is_nii_in dir) (filter (fun p => negb (is_file (stem ++ ".json") p)) l) =
  filter (is_nii_in dir) l.
Proof.
  rewrite filter_filter. apply filter_ext. intros q.
  destruct (is_nii_in dir q) eqn:Hq; [| apply andb_false_r].
  rewrite andb_true_r. apply negb_true_iff, String.eqb_neq.
  apply nii_is_not_json. unfold is_nii_in in Hq.
  now apply andb_true_iff in Hq as [_ Hq].
Qed.

(** Removing the sidecar changes neither the candidates nor the output. *)
Lemma os_remove_sidecar (output_path : Path) (w : world) :
  candidates (parent output_path) (snd (os_remove (sidecar output_path) w)) =
    candidates (parent output_path) w /\
  stdout (snd (os_remove (sidecar output_path) w)) = stdout w /\
  (forall p, In p (files (snd (os_remove (sidecar output_path) w))) -> In p (files w)) /\
  existsb (is_file (sidecar output_path))
    (files (snd (os_remove (sidecar output_path) w))) = false.
Proof.
  unfold os_remove.
  destruct (existsb (is_file (sidecar output_path)) (files w)) eqn:E; cbn [snd files stdout].
  - repeat split.
    + apply candidates_without_json.
    + intros p Hp. now apply filter_In in Hp.
    + apply existsb_filter_out.
  - auto.
Qed.

Section Conversion.

Variable platform_system : string.
Variable platform_machine : string.
Variable which : string -> option string.
Variable config_dir : string.
Variable urlretrieve : string -> string -> M world unit.
Variable extractall : string -> string -> M world unit.
Variable subprocess_call : string -> world -> world.
Variable is_zipfile : string -> world -> bool.
Variable splitext0 : string -> string.
Variable dicom_series_to_nifti : string -> Path -> M world unit.

Local Abbreviation legacy :=
  (dcm_to_nifti_LEGACY platform_system platform_machine which config_dir
     urlretrieve extractall subprocess_call).
Local Abbreviation run :=
  (run_dcm2niix platform_system platform_machine which config_dir
     urlretrieve extractall subprocess_call).

Lemma legacy_spec (input_path : string) (output_path : Path) (verbose : bool)
    (w0 w1 : world) :
  run input_path output_path verbose w0 = (OK tt, w1) ->
  NoDup (map str (files w1)) ->
  existsb (is_file (str output_path)) (files w1) = true ->
  legacy input_path output_path verbose w0 =
  os_remove (sidecar output_path) (disambiguated (parent output_path) w1).
Proof.
  intros Hrun Hnd Hex. unfold dcm_to_nifti_LEGACY.
  rewrite (mbind_OK _ _ w0 Hrun). now apply select_volume_spec.
Qed.

Lemma disambiguated_files (dir : string) (w : world) (p : Path) :
  In p (files (disambiguated dir w)) -> In p (files w).
Proof.
  unfold disambiguated. cbn [files]. intros H.
  apply filter_In in H as [H _]. now apply filter_In in H as [H _].
Qed.

(** C2: a zip archive given without a scratch directory makes
    [dcm_to_nifti] raise its [ValueError] at once: nothing is extracted, no
    output is written, the file system and the console are as before. *)
Theorem zip_without_tmp_dir_raises (input_path : string) (output_path : Path)
    (verbose : bool) (w : world) :
  is_zipfile input_path w = true ->
  dcm_to_nifti extractall is_zipfile splitext0 dicom_series_to_nifti
    input_path output_path None verbose w =
  (Raise (ValueError
     "tmp_dir must be set when input_path is a zip file or bytes object of zip file"),
   w).
Proof.
  intros Hzip. unfold dcm_to_nifti, mbind, raise. now rewrite Hzip.
Qed.


(** C9: once the expected output exists, [dcm_to_nifti_LEGACY] always ends
    by removing the sidecar, the output path with its last seven characters
    ([.nii.gz]) replaced by [.json].  The call returns exactly when that
    file exists and raises [FileNotFoundError] otherwise, although the volume
    was converted; with at most one candidate volume nothing else changes. *)
Theorem legacy_removes_sidecar (input_path : string) (output_path : Path)
    (verbose : bool) (w0 w1 : world) :
  run_dcm2niix platform_system platform_machine which config_dir
    urlretrieve extractall subprocess_call input_path output_path verbose w0 = (OK tt, w1) ->
  NoDup (map str (files w1)) ->
  existsb (is_file (str output_path)) (files w1) = true ->
  let r := dcm_to_nifti_LEGACY platform_system platform_machine which config_dir
             urlretrieve extractall subprocess_call
             input_path output_path verbose w0 in
  let there := existsb (is_file (sidecar output_path)) (files w1) in
  fst r = (if there then OK tt else Raise (FileNotFoundError (sidecar output_path))) /\
  existsb (is_file (sidecar output_path)) (files (snd r)) = false /\
  (length (candidates (parent output_path) w1) <= 1 ->
   r = if there
       then (OK tt, {| files := filter (fun p => negb (is_file (sidecar output_path) p))
                                  (files w1);
                      stdout := stdout w1 |})
       else (Raise (FileNotFoundError (sidecar output_path)), w1)) /\
  (forall stem, str output_path = (stem ++ ".nii.gz")%string ->
                sidecar output_path = (stem ++ ".json")%string).
Proof.
  intros Hrun Hnd Hex r there. subst r there.
  rewrite (legacy_spec _ _ _ _ Hrun Hnd Hex).
  split; [| split; [| split]].
  - unfold os_remove, disambiguated. cbn [files]. unfold sidecar.
    rewrite !json_survives.
    + match goal with |- fst (if ?c then _ else _) = _ => destruct c end;
        reflexivity.
    + destruct (1 <? length (candidates (parent output_path) w1));
        [| intros g []].
      intros g Hg. apply filter_In in Hg as [Hg _].
      eapply candidates_are_nii; eassumption.
    + intros g Hg.
      match type of Hg with In g (if ?c then tl ?k else []) =>
        assert (Hk : In g k) by
          (destruct c; [destruct k; [contradiction | now right] | contradiction])
      end.
      destruct (1 <? length (candidates (parent output_path) w1)).
      * apply filter_In in Hk as [Hk _]. eapply candidates_are_nii; eassumption.
      * eapply candidates_are_nii; eassumption.
  - apply os_remove_sidecar.
  - intros Hle. unfold disambiguated.
    assert (Hs : (1 <? length (candidates (parent output_path) w1)) = false)
      by (apply Nat.ltb_ge; lia).
    rewrite Hs. cbv zeta. rewrite Hs. rewrite !remove_files_nil, !app_nil_r, world_eta.
    unfold os_remove.
    match goal with |- (if ?c then _ else _) = _ => destruct c end; reflexivity.
  - intros stem E. unfold sidecar. rewrite E. f_equal.
    now apply drop_last_append.
Qed.

End Conversion.

(** * The theorems at sample inputs *)

Lemma orientation_round_trip_witness :
  exists y x',
    align None sample_volume [AxR; AxA; AxS] [AxP; AxS; AxL] = OK y /\
    align None y [AxP; AxS; AxL] [AxR; AxA; AxS] = OK x' /\
    array_equal x' sample_volume.
Proof.
  apply (orientation_round_trip None sample_volume [AxR; AxA; AxS] [AxP; AxS; AxL]);
    reflexivity.
Defined.

Lemma reorient_ras_to_lps_witness :
  exists y,
    _reorient_to_lps None ras_affine sample_img = OK y /\
    item y [1; 2; 0] = item sample_volume [0; 0; 0].
Proof.
  destruct (reorient_ras_to_lps None ras_affine sample_img (n0 := 2) (n1 := 3) (n2 := 2)
              eq_refl eq_refl) as (y & Hy & _ & _ & _ & H0).
  exists y. split; [exact Hy |]. apply H0; lia.
Defined.

Lemma reorient_to_lps_preserves_voxels_witness :
  (exists y, _reorient_to_lps None ras_affine sample_img = OK y) /\
  (forall y, _reorient_to_lps None ras_affine sample_img = OK y ->
     Permutation (shape y) [2; 3; 2] /\ Permutation (ravel y) (ravel sample_volume)).
Proof.
  destruct (reorient_to_lps_preserves_voxels None ras_affine sample_img eq_refl)
    as [H1 H2].
  split; [apply H1; reflexivity | exact H2].
Defined.


Ltac evaluated H := vm_compute in H; injection H as <-.

Ltac every_index H :=
  apply in_ndindex in H; simpl in H;
  repeat (destruct H as [<- | H]; [reflexivity |]); destruct H.

Lemma empty_class_skipped_witness :
  exists doc,
    snd (sample_export organ_classes) = [("/out/seg.dcm", doc)] /\
    ~ In "organB" (map roi_name (rois doc)).
Proof.
  destruct (empty_class_skipped None ras_affine Z.eqb no_create_error no_roi_error
              sample_seg organ_classes "/ref" "/out/seg.dcm" [] 2%Z "organB"
              (w' := snd (sample_export organ_classes)))
    as (lps & sf & doc & Hlps & Hsf & Hw & _ & _ & _ & _ & Hname).
  - reflexivity.
  - simpl. auto.
  - intros lps sf idx Hlps Hsf Hb.
    evaluated Hlps. evaluated Hsf. every_index Hb.
  - exists doc. split; [exact Hw |]. apply Hname.
    intros k' [E | [E | []]]; [discriminate E | injection E as <-].
    apply class_present_false. intros idx Hb.
    evaluated Hlps. evaluated Hsf. every_index Hb.
Defined.



Lemma export_is_atomic_witness :
  save_mask_as_rtstruct None ras_affine Z.eqb no_create_error organA_fails
    (PyNifti1Image sample_seg) organ_classes "/ref" "/out/seg.dcm" [] =
  (Raise (LibraryError "degenerate mask"), []).
Proof.
  destruct (export_is_atomic None ras_affine Z.eqb no_create_error organA_fails
              sample_seg organ_classes "/ref" "/out/seg.dcm" []) as [_ H].
  destruct (_reorient_to_lps None ras_affine sample_seg) as [lps |] eqn:Hlps;
    [| discriminate].
  destruct (np_transpose lps [2; 1; 0]) as [sf |] eqn:Hsf;
    [| evaluated Hlps; discriminate].
  apply (H lps sf [] 1%Z "organA" [(2%Z, "organB")] {| series_path := "/ref"; rois := [] |}
           (LibraryError "degenerate mask") eq_refl Hsf eq_refl eq_refl eq_refl).
  - evaluated Hlps. evaluated Hsf. reflexivity.
  - reflexivity.
Defined.

Lemma zip_without_tmp_dir_raises_witness :
  dcm_to_nifti no_download zip_by_name (fun p => p) no_decoder
    "scan.zip" ct_output None true empty_world =
  (Raise (ValueError
     "tmp_dir must be set when input_path is a zip file or bytes object of zip file"),
   empty_world).
Proof.
  apply (zip_without_tmp_dir_raises no_download zip_by_name (fun p => p) no_decoder
           "scan.zip" ct_output true empty_world).
  reflexivity.
Defined.

Ltac distinct_paths :=
  simpl; repeat (constructor; [simpl; intuition discriminate |]); constructor.



Lemma legacy_removes_sidecar_witness :
  sample_legacy [ct_output] ct_output =
  (Raise (FileNotFoundError "/out/ct.json"), {| files := [ct_output]; stdout := [] |}).
Proof.
  destruct (legacy_removes_sidecar "Linux" "x86_64" on_path "/cfg" no_download no_download
              (emits [ct_output]) "/in" ct_output false empty_world
              (w1 := {| files := [ct_output]; stdout := [] |}))
    as (_ & _ & H & _).
  - reflexivity.
  - distinct_paths.
  - reflexivity.
  - apply H. simpl. lia.
Defined.

(** * Further properties *)

(** ** When the orientation transformer returns *)


Lemma reorient_OK_inv (junk : orow) {Affine voxel : Type} (io : Affine -> ornt)
    (img : Nifti1Image Affine voxel) (lps : ndarray voxel) :
  _reorient_to_lps junk io img = OK lps ->
  exists T,
    ornt_transform junk (io (affine img)) (axcodes2ornt [AxL; AxP; AxS]) = OK T /\
    ndim (get_fdata img) = 3 /\
    apply_orientation (get_fdata img) T = OK lps.
Proof.
  unfold _reorient_to_lps. intros H.
  apply bind_OK_inv in H as (T & HT & H). exists T. split; [exact HT |].
  destruct (ndim (get_fdata img) =? 3) eqn:Hnd; simpl in H; [| discriminate].
  apply Nat.eqb_eq in Hnd. split; [exact Hnd |].
  now destruct (apply_orientation (get_fdata img) T).
Qed.


Section ReorientationOutcome.

Variable junk : orow.
Variable Affine : Type.
Variable voxel : Type.
Variable io_orientation : Affine -> ornt.


(** X2: the reorientation contract for any full orientation.  When array
    axis [t] of the data runs along anatomical axis [a_t] with direction
    [f_t], axis [a_t] of the result has the length of axis [t], and the voxel
    at [(i0, i1, i2)] lands at the position whose coordinate [a_t] is [i_t]
    when [f_t] is the LPS direction of that axis, and [n_t - 1 - i_t]
    (mirrored) when it is not. *)
Theorem reorient_to_lps_contract (img : Nifti1Image Affine voxel)
    (a0 a1 a2 : nat) (f0 f1 f2 : Z) (n0 n1 n2 : nat) :
  io_orientation (affine img) = [Some (a0, f0); Some (a1, f1); Some (a2, f2)] ->
  is_axes_permutation [a0; a1; a2] 3 = true ->
  shape (get_fdata img) = [n0; n1; n2] ->
  let lps_flip a := row_flip (nth a (axcodes2ornt [AxL; AxP; AxS]) None) in
  let place (v0 v1 v2 : nat) :=
    list_set (list_set (list_set [0; 0; 0] a0 v0) a1 v1) a2 v2 in
  let coord (f : Z) (a n i : nat) := if (f =? lps_flip a)%Z then i else n - 1 - i in
  exists y,
    _reorient_to_lps junk io_orientation img = OK y /\
    shape y = place n0 n1 n2 /\
    forall i0 i1 i2, i0 < n0 -> i1 < n1 -> i2 < n2 ->
      item y (place (coord f0 a0 n0 i0) (coord f1 a1 n1 i1) (coord f2 a2 n2 i2)) =
      item (get_fdata img) [i0; i1; i2].
Proof.
  intros Hio Hax Hs lps_flip place coord. subst lps_flip place coord.
  unfold _reorient_to_lps. rewrite Hio.
  apply axes_permutation3 in Hax. cbn [In] in Hax.
  decompose [or] Hax; try contradiction;
    match goal with E : _ = _ |- _ => injection E as <- <- <- end;
    unfold ndim, apply_orientation, np_transpose, ndim; simpl; rewrite Hs; simpl;
    repeat match goal with
           | |- context [(?f =? ?g)%Z] => is_var f; destruct (f =? g)%Z
           end; simpl; rewrite ?Hs; simpl;
    (eexists; split; [reflexivity | split; [reflexivity |]]);
    intros i0 i1 i2 Hi0 Hi1 Hi2; simpl;
    f_equal; repeat (f_equal; try lia).
Qed.

(** X3: a 3D image whose affine already implies (L, P, S) comes back
    unchanged. *)
Theorem reorient_lps_is_identity (img : Nifti1Image Affine voxel) :
  io_orientation (affine img) = axcodes2ornt [AxL; AxP; AxS] ->
  ndim (get_fdata img) = 3 ->
  exists y,
    _reorient_to_lps junk io_orientation img = OK y /\
    array_equal y (get_fdata img).
Proof.
  intros Hio Hnd. destruct (shape_3d _ Hnd) as (n0 & n1 & n2 & Hs).
  unfold _reorient_to_lps. rewrite Hio.
  unfold ndim, apply_orientation, np_transpose, ndim. simpl. rewrite Hs. simpl.
  eexists. split; [reflexivity |].
  unfold array_equal. simpl. rewrite Hs. split; [reflexivity |].
  intros idx Hb. apply in_ndindex, in_ndindex3 in Hb.
  destruct Hb as (i & j & k & -> & _). reflexivity.
Qed.

End ReorientationOutcome.

(** ** What the exporter writes *)

Lemma ravel_np_map {X Y} (f : X -> Y) (x : ndarray X) :
  ravel (np_map f x) = map f (ravel x).
Proof. unfold ravel, np_map. simpl. now rewrite map_map. Qed.

(** A reoriented volume is 3D, holds the voxels of the data, and its axes
    can always be reversed. *)
Lemma reorient_then_transpose (junk : orow) {Affine voxel : Type}
    (io : Affine -> ornt) (img : Nifti1Image Affine voxel) (lps : ndarray voxel) :
  _reorient_to_lps junk io img = OK lps ->
  Permutation (shape lps) (shape (get_fdata img)) /\
  Permutation (ravel lps) (ravel (get_fdata img)) /\
  exists sf,
    np_transpose lps [2; 1; 0] = OK sf /\
    shape sf = rev (shape lps) /\
    Permutation (ravel sf) (ravel lps).
Proof.
  intros H. apply reorient_OK_inv in H as (T & HT & Hnd & Hy).
  destruct (shape_3d _ Hnd) as (n0 & n1 & n2 & Hs).
  apply ornt_transform_lps in HT.
  unfold signed_permutation in HT. apply andb_true_iff in HT as [HT _].
  destruct (apply_orientation_3d (get_fdata img) T Hs HT) as (y & Hy' & Hsh & Hr).
  rewrite Hy in Hy'. injection Hy' as <-.
  split; [exact Hsh |]. split; [exact Hr |].
  assert (Hlen : ndim lps = 3).
  { unfold ndim. rewrite (Permutation_length Hsh), Hs. reflexivity. }
  destruct (shape_3d _ Hlen) as (m0 & m1 & m2 & Hm).
  destruct (np_transpose_3d lps [2; 1; 0] Hm eq_refl) as (sf & Hsf & _ & Hrs).
  exists sf. split; [exact Hsf |]. split; [| exact Hrs].
  unfold np_transpose in Hsf. rewrite Hlen in Hsf. simpl in Hsf.
  injection Hsf as <-. simpl. rewrite Hm. reflexivity.
Qed.

Section ExporterOutcome.

Variable junk : orow.
Variable Affine : Type.
Variable voxel : Type.
Variable io_orientation : Affine -> ornt.
Variable voxel_eqb : voxel -> Z -> bool.
Variable create_new_error : string -> option exn.
Variable add_roi_error : RTStruct -> ndarray Z -> string -> option exn.

Local Abbreviation loop' := (add_classes voxel_eqb add_roi_error).
Local Abbreviation export' :=
  (save_mask_as_rtstruct junk io_orientation voxel_eqb create_new_error add_roi_error).

(** Classes without a voxel leave the document as it is. *)
Lemma add_classes_absent (sf : ndarray voxel) (items : list (Z * string))
    (rt : RTStruct) (w : saved_files) :
  (forall k name, In (k, name) items -> class_present voxel_eqb sf k = false) ->
  loop' sf items rt w = (OK rt, w).
Proof.
  induction items as [| [k name] items IH]; simpl; intros H; [reflexivity |].
  pose proof (H k name (or_introl eq_refl)) as Hk. unfold class_present in Hk.
  rewrite Hk. simpl. apply IH. intros k' n' Hin. apply (H k' n'). now right.
Qed.


(** X4: when no class of the class map has a voxel (an empty class map
    included), the export still writes its file: a document anchored to the
    reference series with no ROI entry, whatever contour construction would
    have done. *)
Theorem export_without_labels (img : Nifti1Image Affine voxel)
    (classes : list (Z * string)) (ref out : string) (w : saved_files)
    (lps sf : ndarray voxel) :
  _reorient_to_lps junk io_orientation img = OK lps ->
  np_transpose lps [2; 1; 0] = OK sf ->
  create_new_error ref = None ->
  (forall k name, In (k, name) classes -> class_present voxel_eqb sf k = false) ->
  save_mask_as_rtstruct junk io_orientation voxel_eqb create_new_error add_roi_error
    (PyNifti1Image img) classes ref out w =
  (OK tt, w ++ [(out, {| series_path := ref; rois := [] |})]).
Proof.
  intros Hlps Hsf Hnew Habs.
  unfold save_mask_as_rtstruct, mbind, lift, create_new.
  rewrite Hlps, Hsf, Hnew, (add_classes_absent _ _ _ _ Habs). reflexivity.
Qed.


End ExporterOutcome.

Section ExporterMasks.

Variable junk : orow.
Variable Affine : Type.
Variable voxel : Type.
Variable io_orientation : Affine -> ornt.
Variable voxel_eqb : voxel -> Z -> bool.
Variable create_new_error : string -> option exn.
Variable add_roi_error : RTStruct -> ndarray Z -> string -> option exn.

(** X6: every mask of the exported document is a 0/1 array whose shape is
    the shape of the LPS volume reversed (slices, rows, columns), hence a
    permutation of the shape of the image data. *)
Theorem roi_masks_geometry (img : Nifti1Image Affine voxel)
    (classes : list (Z * string)) (ref out : string) (w w' : saved_files) :
  save_mask_as_rtstruct junk io_orientation voxel_eqb create_new_error add_roi_error
    (PyNifti1Image img) classes ref out w = (OK tt, w') ->
  exists lps doc,
    _reorient_to_lps junk io_orientation img = OK lps /\
    w' = w ++ [(out, doc)] /\
    forall r, In r (rois doc) ->
      shape (roi_mask r) = rev (shape lps) /\
      Permutation (shape (roi_mask r)) (shape (get_fdata img)) /\
      forall idx, item (roi_mask r) idx = 0%Z \/ item (roi_mask r) idx = 1%Z.
Proof.
  intros Hrun.
  apply save_mask_as_rtstruct_OK in Hrun
    as (lps & sf & doc & Hlps & Hsf & Hw & _ & Hrois).
  destruct (reorient_then_transpose _ _ _ Hlps) as (Hsh & _ & sf' & Hsf' & Hrev & _).
  rewrite Hsf in Hsf'. injection Hsf' as <-.
  exists lps, doc. split; [exact Hlps |]. split; [exact Hw |].
  intros r Hr. rewrite Hrois in Hr.
  apply in_map_iff in Hr as (e & <- & _). simpl.
  split; [exact Hrev |]. split.
  - rewrite Hrev. eapply Permutation_trans; [| exact Hsh].
    apply Permutation_sym, Permutation_rev.
  - intros idx. destruct (voxel_eqb (item sf idx) (fst e)); simpl; auto.
Qed.

(** X7: reorientation and axis reorder lose no labelled voxel.  The mask
    of every exported entry holds, up to the order of the voxels, a 1 for
    each voxel of the image data equal to the class index of the entry and a
    0 for each other voxel. *)
Theorem roi_masks_count_voxels (img : Nifti1Image Affine voxel)
    (classes : list (Z * string)) (ref out : string) (w w' : saved_files) :
  save_mask_as_rtstruct junk io_orientation voxel_eqb create_new_error add_roi_error
    (PyNifti1Image img) classes ref out w = (OK tt, w') ->
  exists doc,
    w' = w ++ [(out, doc)] /\
    forall r, In r (rois doc) ->
      exists k,
        In (k, roi_name r) classes /\
        Permutation (ravel (roi_mask r))
          (map (fun v => uint8_of_bool (voxel_eqb v k)) (ravel (get_fdata img))).
Proof.
  intros Hrun.
  apply save_mask_as_rtstruct_OK in Hrun
    as (lps & sf & doc & Hlps & Hsf & Hw & _ & Hrois).
  destruct (reorient_then_transpose _ _ _ Hlps) as (_ & Hr1 & sf' & Hsf' & _ & Hr2).
  rewrite Hsf in Hsf'. injection Hsf' as <-.
  exists doc. split; [exact Hw |].
  intros r Hr. rewrite Hrois in Hr.
  apply in_map_iff in Hr as ([k name] & <- & He). apply filter_In in He as [He _].
  exists k. split; [exact He |]. simpl. unfold class_mask.
  rewrite !ravel_np_map, map_map. apply Permutation_map.
  eapply Permutation_trans; eassumption.
Qed.

End ExporterMasks.

(** ** What the legacy converter leaves behind *)

Lemma append_inj_l (a b c : string) : (a ++ b)%string = (a ++ c)%string -> b = c.
Proof.
  induction a as [| x a IH]; simpl; intros H; [exact H |].
  injection H as H. now apply IH.
Qed.

(** A candidate that still exists in a sublisting is a candidate there. *)
Lemma still_candidate (dir : string) (w1 w2 : world) (p : Path) :
  NoDup (map str (files w1)) ->
  (forall q, In q (files w2) -> In q (files w1)) ->
  In p (candidates dir w1) ->
  existsb (is_file (str p)) (files w2) = true ->
  In p (candidates dir w2).
Proof.
  intros Hnd Hsub Hp E. apply existsb_exists in E as (q & Hq & E).
  unfold is_file in E. apply String.eqb_eq in E.
  assert (Hp1 : In p (files w1)) by now apply filter_In in Hp.
  rewrite (NoDup_str_inj (files w1) q p Hnd (Hsub q Hq) Hp1 E) in Hq.
  apply filter_In. split; [exact Hq |]. now apply filter_In in Hp.
Qed.

(** A file that is no candidate is not matched by any candidate. *)
Lemma not_matched (dir : string) (l gone : list Path) (p : Path) :
  NoDup (map str l) ->
  In p l -> is_nii_in dir p = false ->
  (forall g, In g gone -> In g l /\ is_nii_in dir g = true) ->
  existsb (fun g => is_file (str g) p) gone = false.
Proof.
  intros Hnd Hp Hnot Hg.
  destruct (existsb _ gone) eqn:E; [| reflexivity].
  apply existsb_exists in E as (g & Hin & E).
  unfold is_file in E. apply String.eqb_eq in E.
  destruct (Hg g Hin) as [Hgl Hgn].
  rewrite (NoDup_str_inj l p g Hnd Hp Hgl E) in Hnot. congruence.
Qed.

Section ConversionOutcome.

Variable platform_system : string.
Variable platform_machine : string.
Variable which : string -> option string.
Variable config_dir : string.
Variable urlretrieve : string -> string -> M world unit.
Variable extractall : string -> string -> M world unit.
Variable subprocess_call : string -> world -> world.
Variable is_zipfile : string -> world -> bool.
Variable dicom_series_to_nifti : string -> Path -> M world unit.

Local Abbreviation legacy' :=
  (dcm_to_nifti_LEGACY platform_system platform_machine which config_dir
     urlretrieve extractall subprocess_call).
Local Abbreviation run' :=
  (run_dcm2niix platform_system platform_machine which config_dir
     urlretrieve extractall subprocess_call).

(** X8: when the expected output file does not exist after the binary
    ran, the legacy converter raises its [ValueError] after printing the
    output folder and its content; no file is removed, not even stray
    candidates or a sidecar. *)
Theorem legacy_fails_without_output (input_path : string) (output_path : Path)
    (verbose : bool) (w0 w1 : world) :
  run_dcm2niix platform_system platform_machine which config_dir
    urlretrieve extractall subprocess_call input_path output_path verbose w0 = (OK tt, w1) ->
  existsb (is_file (str output_path)) (files w1) = false ->
  dcm_to_nifti_LEGACY platform_system platform_machine which config_dir
    urlretrieve extractall subprocess_call input_path output_path verbose w0 =
  (Raise (ValueError "dcm2niix failed to convert dicom to nifti."),
   {| files := files w1;
      stdout := stdout w1 ++
        [Text ("Content of dcm2niix output folder (" ++ parent output_path ++ "):");
         Names (map str (filter (fun p => (parent p =? parent output_path)%string)
                           (files w1)))] |}).
Proof.
  intros Hrun Hex. unfold dcm_to_nifti_LEGACY.
  rewrite (mbind_OK _ _ w0 Hrun). unfold select_volume.
  rewrite (mbind_OK _ _ w1 (x := false) (w' := w1))
    by (unfold path_exists; now rewrite Hex).
  cbn [negb]. unfold mbind, print, glob_all, raise. cbn [files stdout].
  now rewrite <- app_assoc.
Qed.

(** X9: the legacy converter creates no file and touches only volume files
    of the output folder and the sidecar: every other file that existed after
    the binary ran still exists when the call ends. *)
Theorem legacy_keeps_other_files (input_path : string) (output_path : Path)
    (verbose : bool) (w0 w1 : world) :
  run_dcm2niix platform_system platform_machine which config_dir
    urlretrieve extractall subprocess_call input_path output_path verbose w0 = (OK tt, w1) ->
  NoDup (map str (files w1)) ->
  existsb (is_file (str output_path)) (files w1) = true ->
  let w2 := snd (dcm_to_nifti_LEGACY platform_system platform_machine which config_dir
                   urlretrieve extractall subprocess_call
                   input_path output_path verbose w0) in
  (forall p, In p (files w2) -> In p (files w1)) /\
  (forall p, In p (files w1) ->
     is_nii_in (parent output_path) p = false ->
     is_file (sidecar output_path) p = false ->
     In p (files w2)).
Proof.
  intros Hrun Hnd Hex w2. subst w2.
  rewrite (legacy_spec _ _ _ _ _ _ _ _ _ _ _ Hrun Hnd Hex).
  destruct (os_remove_sidecar output_path (disambiguated (parent output_path) w1))
    as (_ & _ & Hsub & _).
  split.
  - intros p Hp. now apply (disambiguated_files (parent output_path)), Hsub.
  - intros p Hp Hnot Hside.
    assert (Hd : In p (files (disambiguated (parent output_path) w1))).
    { unfold disambiguated. cbn [files].
      assert (Hc : forall g, In g (candidates (parent output_path) w1) ->
                   In g (files w1) /\ is_nii_in (parent output_path) g = true)
        by (intros g Hg; now apply filter_In in Hg).
      apply filter_In. split.
      - apply filter_In. split; [exact Hp |]. apply negb_true_iff.
        apply (not_matched (parent output_path) (files w1) _ p Hnd Hp Hnot).
        intros g Hg. apply Hc.
        destruct (1 <? length (candidates (parent output_path) w1));
          [now apply filter_In in Hg | contradiction].
      - apply negb_true_iff.
        apply (not_matched (parent output_path) (files w1) _ p Hnd Hp Hnot).
        intros g Hg. apply Hc.
        match type of Hg with In g (if ?c then tl ?k else []) =>
          assert (Hk : In g k) by
            (destruct c; [destruct k; [contradiction | now right] | contradiction])
        end.
        destruct (1 <? length (candidates (parent output_path) w1));
          [now apply filter_In in Hk | exact Hk]. }
    unfold os_remove.
    destruct (existsb _ (files (disambiguated (parent output_path) w1)));
      cbn [snd files]; [| exact Hd].
    apply filter_In. split; [exact Hd |]. now rewrite Hside.
Qed.

(** X10: after the disambiguation at most one candidate volume is left,
    and it need not be the requested output.  With more than one candidate,
    the output file survives exactly when it is the first candidate without
    ROI in its name. *)
Theorem legacy_output_survival (input_path : string) (output_path : Path)
    (verbose : bool) (w0 w1 : world) :
  run_dcm2niix platform_system platform_machine which config_dir
    urlretrieve extractall subprocess_call input_path output_path verbose w0 = (OK tt, w1) ->
  NoDup (map str (files w1)) ->
  In output_path (files w1) ->
  endswith (name output_path) ".nii.gz" = true ->
  let cands := candidates (parent output_path) w1 in
  let w2 := snd (dcm_to_nifti_LEGACY platform_system platform_machine which config_dir
                   urlretrieve extractall subprocess_call
                   input_path output_path verbose w0) in
  length (candidates (parent output_path) w2) <= 1 /\
  (existsb (is_file (str output_path)) (files w2) = true <->
   length cands <= 1 \/ exists rest, filter not_roi cands = output_path :: rest).
Proof.
  intros Hrun Hnd Hin Hname cands w2. subst w2.
  assert (Hex : existsb (is_file (str output_path)) (files w1) = true)
    by now apply exists_in_listing.
  rewrite (legacy_spec _ _ _ _ _ _ _ _ _ _ _ Hrun Hnd Hex).
  destruct (os_remove_sidecar output_path (disambiguated (parent output_path) w1))
    as (Hc & _ & Hsub & _).
  set (w3 := snd (os_remove (sidecar output_path) (disambiguated (parent output_path) w1))) in *.
  assert (Hafter : candidates (parent output_path) w3 =
            (if 1 <? length cands then firstn 1 (filter not_roi cands) else cands)).
  { rewrite Hc. now apply candidates_disambiguated. }
  assert (Hout : In output_path cands).
  { apply filter_In. split; [exact Hin |]. unfold is_nii_in.
    now rewrite String.eqb_refl, Hname. }
  assert (Hiff : existsb (is_file (str output_path)) (files w3) = true <->
                 In output_path (candidates (parent output_path) w3)).
  { split.
    - apply still_candidate with (w1 := w1); try assumption.
      intros q Hq. now apply (disambiguated_files (parent output_path)), Hsub.
    - intros H. apply exists_in_listing. now apply filter_In in H. }
  split.
  - rewrite Hafter. destruct (1 <? length cands) eqn:Hs.
    + rewrite length_firstn. lia.
    + apply Nat.ltb_ge in Hs. lia.
  - rewrite Hiff, Hafter. destruct (1 <? length cands) eqn:Hs.
    + apply Nat.ltb_lt in Hs. split.
      * intros H. right.
        destruct (filter not_roi cands) as [| a rest]; [contradiction |].
        simpl in H. destruct H as [-> | []]. now exists rest.
      * intros [H | (rest & ->)]; [lia | now left].
    + apply Nat.ltb_ge in Hs. split; [now left | now intros _].
Qed.

End ConversionOutcome.

(** ** Finding and downloading the binary *)

Lemma filter_absent (s : string) (l : list Path) :
  existsb (is_file s) l = false -> filter (fun p => negb (is_file s p)) l = l.
Proof.
  intros H. apply filter_all. intros p Hp. apply negb_true_iff.
  destruct (is_file s p) eqn:E; [| reflexivity].
  assert (existsb (is_file s) l = true) by (apply existsb_exists; now exists p).
  congruence.
Qed.

(** Removing a file if it exists leaves the listing without it. *)
Lemma remove_if_exists (s : string) (w : world) :
  (there <-- path_exists s ;; when there (os_remove s))%monad w =
  (OK tt, {| files := filter (fun p => negb (is_file s p)) (files w);
             stdout := stdout w |}).
Proof.
  unfold mbind, path_exists, when, os_remove, ret.
  destruct (existsb (is_file s) (files w)) eqn:E; [now rewrite E |].
  now rewrite (filter_absent s (files w) E), world_eta.
Qed.

Lemma remove_if_exists_then {X} (s : string) (k : M world X) (w : world) :
  (there <-- path_exists s ;; when there (os_remove s) ;;; k)%monad w =
  k {| files := filter (fun p => negb (is_file s p)) (files w); stdout := stdout w |}.
Proof.
  unfold mbind, path_exists, when, os_remove, ret.
  destruct (existsb (is_file s) (files w)) eqn:E; [now rewrite E |].
  now rewrite (filter_absent s (files w) E), world_eta.
Qed.

Section Binary.

Variable platform_system : string.
Variable platform_machine : string.
Variable which : string -> option string.
Variable config_dir : string.
Variable urlretrieve : string -> string -> M world unit.
Variable extractall : string -> string -> M world unit.
Variable subprocess_call : string -> world -> world.

(** X11: with dcm2niix on the path, or with a private copy in the
    configuration directory, nothing is downloaded or printed: the shell
    command runs in the world as it was, on the binary found, and the call
    goes on whatever the command did. *)
Theorem run_dcm2niix_with_binary (input_path : string) (output_path : Path)
    (verbose : bool) (w0 : world) :
  let private_copy :=
    joinpath config_dir
      (if (platform_system =? "Windows")%string then "dcm2niix.exe" else "dcm2niix") in
  let command (dcm2niix : string) :=
    (dquote ++ dcm2niix ++ dquote ++ " -o " ++ parent output_path ++ " -z y -f "
       ++ drop_last 7 (name output_path) ++ " " ++ input_path ++ " "
       ++ (if verbose then "" else "> /dev/null"))%string in
  (which "dcm2niix" <> None ->
   run_dcm2niix platform_system platform_machine which config_dir
     urlretrieve extractall subprocess_call input_path output_path verbose w0 =
   (OK tt, subprocess_call (command "dcm2niix") w0)) /\
  (which "dcm2niix" = None ->
   existsb (is_file (str private_copy)) (files w0) = true ->
   run_dcm2niix platform_system platform_machine which config_dir
     urlretrieve extractall subprocess_call input_path output_path verbose w0 =
   (OK tt, subprocess_call (command (str private_copy)) w0)).
Proof.
  intros private_copy command. subst private_copy command.
  unfold run_dcm2niix, command_exists. split.
  - intros Hw. destruct (which "dcm2niix"); [reflexivity | contradiction].
  - intros -> Hex. unfold mbind at 1 2, path_exists.
    destruct (platform_system =? "Windows")%string; rewrite Hex; reflexivity.
Qed.

(** X12: without a binary and on a platform other than Windows, macOS and
    Linux, the legacy converter raises its [ValueError] at once: one line is
    printed, nothing is fetched, the shell command does not run. *)
Theorem legacy_unknown_platform (input_path : string) (output_path : Path)
    (verbose : bool) (w0 : world) :
  which "dcm2niix" = None ->
  existsb (is_file (str (joinpath config_dir "dcm2niix"))) (files w0) = false ->
  platform_system <> "Windows" ->
  platform_system <> "Darwin" ->
  platform_system <> "Linux" ->
  dcm_to_nifti_LEGACY platform_system platform_machine which config_dir
    urlretrieve extractall subprocess_call input_path output_path verbose w0 =
  (Raise (ValueError
     "Unknown operating system. Can not download the right version of dcm2niix."),
   {| files := files w0; stdout := stdout w0 ++ [Text "  Downloading dcm2niix..."] |}).
Proof.
  intros Hw Hex HW HD HL.
  apply String.eqb_neq in HW, HD, HL.
  unfold dcm_to_nifti_LEGACY, run_dcm2niix, command_exists, download_dcm2niix.
  rewrite Hw, HW, HD, HL. unfold mbind, path_exists. rewrite Hex. reflexivity.
Qed.

(** X13: the machine architecture plays no part: on macOS the ARM and the
    Intel branch fetch the same archive. *)
Theorem download_ignores_machine (machine1 machine2 : string) (w : world) :
  download_dcm2niix platform_system machine1 config_dir urlretrieve extractall w =
  download_dcm2niix platform_system machine2 config_dir urlretrieve extractall w.
Proof.
  unfold download_dcm2niix, mbind. simpl.
  destruct (platform_system =? "Windows")%string; [reflexivity |].
  destruct (platform_system =? "Darwin")%string; [| reflexivity].
  now destruct (prefix "arm" machine1 || prefix "aarch" machine1),
               (prefix "arm" machine2 || prefix "aarch" machine2).
Qed.

(** The archive and the binary of a platform. *)
Let archive_url : string :=
  (release ++
   (if (platform_system =? "Windows")%string then "dcm2niix_win.zip"
    else if (platform_system =? "Darwin")%string then "dcm2niix_macos.zip"
    else "dcm2niix_lnx.zip"))%string.

Let binary : string :=
  str (joinpath config_dir
         (if (platform_system =? "Windows")%string then "dcm2niix.exe" else "dcm2niix")).

Let zip : string := str (joinpath config_dir "dcm2niix.zip").

Let batch : string := str (joinpath config_dir "dcm2niibatch").

Lemma download_until_chmod (w wa wb : world) :
  platform_system = "Windows" \/ platform_system = "Darwin" \/ platform_system = "Linux" ->
  urlretrieve archive_url zip
    {| files := files w; stdout := stdout w ++ [Text "  Downloading dcm2niix..."] |}
    = (OK tt, wa) ->
  extractall zip config_dir wa = (OK tt, wb) ->
  download_dcm2niix platform_system platform_machine config_dir urlretrieve extractall w =
  (os_chmod binary ;;;
   zip_there <-- path_exists zip ;;
   when zip_there (os_remove zip) ;;;
   batch_there <-- path_exists batch ;;
   when batch_there (os_remove batch))%monad wb.
Proof.
  intros Hp Hurl Hext. unfold download_dcm2niix.
  unfold mbind at 1. unfold print at 1.
  assert (Hu : forall k : string -> M world unit,
    mbind (if (platform_system =? "Windows")%string then
              ret (release ++ "dcm2niix_win.zip")%string
            else if (platform_system =? "Darwin")%string then
              if prefix "arm" platform_machine || prefix "aarch" platform_machine then
                ret (release ++ "dcm2niix_macos.zip")%string
              else
                ret (release ++ "dcm2niix_macos.zip")%string
            else if (platform_system =? "Linux")%string then
              ret (release ++ "dcm2niix_lnx.zip")%string
            else
              raise (ValueError
                "Unknown operating system. Can not download the right version of dcm2niix."))
          k = k archive_url).
  { intros k. unfold archive_url.
    destruct Hp as [-> | [-> | ->]]; simpl; [reflexivity | | reflexivity].
    now destruct (prefix "arm" platform_machine || prefix "aarch" platform_machine). }
  rewrite Hu. fold zip.
  rewrite (mbind_OK _ _ _ Hurl), (mbind_OK _ _ _ Hext).
  unfold binary. now destruct (platform_system =? "Windows")%string.
Qed.

(** X14: a download that succeeds cleans up after itself.  Once the
    archive is fetched and unpacked and the binary is there, the call
    returns, the binary is still there, and neither the archive nor
    dcm2niibatch is left; all other files stay. *)
Theorem download_cleans_up (w wa wb : world) :
  platform_system = "Windows" \/ platform_system = "Darwin" \/ platform_system = "Linux" ->
  urlretrieve archive_url zip
    {| files := files w; stdout := stdout w ++ [Text "  Downloading dcm2niix..."] |}
    = (OK tt, wa) ->
  extractall zip config_dir wa = (OK tt, wb) ->
  existsb (is_file binary) (files wb) = true ->
  let r := download_dcm2niix platform_system platform_machine config_dir
             urlretrieve extractall w in
  r = (OK tt, {| files := filter (fun p => negb (is_file batch p))
                            (filter (fun p => negb (is_file zip p)) (files wb));
                 stdout := stdout wb |}) /\
  existsb (is_file zip) (files (snd r)) = false /\
  existsb (is_file batch) (files (snd r)) = false /\
  existsb (is_file binary) (files (snd r)) = true.
Proof.
  intros Hp Hurl Hext Hbin r. subst r.
  rewrite (download_until_chmod w Hp Hurl Hext).
  assert (Hr : (os_chmod binary ;;;
                zip_there <-- path_exists zip ;;
                when zip_there (os_remove zip) ;;;
                batch_there <-- path_exists batch ;;
                when batch_there (os_remove batch))%monad wb =
               (OK tt, {| files := filter (fun p => negb (is_file batch p))
                                     (filter (fun p => negb (is_file zip p)) (files wb));
                          stdout := stdout wb |})).
  { unfold mbind at 1. unfold os_chmod. rewrite Hbin.
    rewrite remove_if_exists_then. now rewrite remove_if_exists. }
  rewrite Hr. cbn [snd files]. split; [reflexivity |].
  assert (Hkeep : forall s p, s <> str p -> is_file s p = false).
  { intros s p Hs. unfold is_file. apply String.eqb_neq. congruence. }
  split; [| split].
  - rewrite existsb_filter_keep.
    + apply existsb_filter_out.
    + intros q _ Hq. apply negb_true_iff. unfold is_file in *.
      apply String.eqb_eq in Hq. apply String.eqb_neq. rewrite Hq.
      unfold zip, batch, str. simpl. intros E. apply append_inj_l in E. discriminate.
  - apply existsb_filter_out.
  - rewrite !existsb_filter_keep; [exact Hbin | |];
      intros q _ Hq; apply negb_true_iff; unfold is_file in *;
      apply String.eqb_eq in Hq; apply String.eqb_neq; rewrite Hq;
      unfold binary, zip, batch, str; simpl; intros E; apply append_inj_l in E;
      destruct (platform_system =? "Windows")%string; discriminate.
Qed.

(** X15: a download whose archive does not hold the binary raises
    [FileNotFoundError] from the permission change and stops there: the
    clean-up is skipped and whatever the unpacking left stays, the archive
    included. *)
Theorem download_without_binary (w wa wb : world) :
  platform_system = "Windows" \/ platform_system = "Darwin" \/ platform_system = "Linux" ->
  urlretrieve archive_url zip
    {| files := files w; stdout := stdout w ++ [Text "  Downloading dcm2niix..."] |}
    = (OK tt, wa) ->
  extractall zip config_dir wa = (OK tt, wb) ->
  existsb (is_file binary) (files wb) = false ->
  download_dcm2niix platform_system platform_machine config_dir urlretrieve extractall w =
  (Raise (FileNotFoundError binary), wb).
Proof.
  intros Hp Hurl Hext Hbin.
  rewrite (download_until_chmod w Hp Hurl Hext).
  unfold mbind, os_chmod. now rewrite Hbin.
Qed.

End Binary.

(** ** The in-process converter *)

Section InProcess.

Variable extractall : string -> string -> M world unit.
Variable is_zipfile : string -> world -> bool.
Variable dicom_series_to_nifti : string -> Path -> M world unit.

(** X16: the archive's own directory is never used for the extraction:
    whatever [os.path.splitext] would return, [dcm_to_nifti] behaves the
    same. *)
Theorem dcm_to_nifti_ignores_splitext (splitext0 splitext0' : string -> string)
    (input_path : string) (output_path : Path) (tmp_dir : option string)
    (verbose : bool) (w : world) :
  dcm_to_nifti extractall is_zipfile splitext0 dicom_series_to_nifti
    input_path output_path tmp_dir verbose w =
  dcm_to_nifti extractall is_zipfile splitext0' dicom_series_to_nifti
    input_path output_path tmp_dir verbose w.
Proof.
  unfold dcm_to_nifti, mbind. simpl.
  destruct (is_zipfile input_path w); [| reflexivity].
  destruct tmp_dir; reflexivity.
Qed.

(** X17: what the decoder is run on.  An input that is no archive goes to
    the decoder as it is, in the world as it is, whatever [tmp_dir] and
    [verbose] are.  An archive with a scratch directory is unpacked into
    [tmp_dir/extracted_dcm] (after one printed line when verbose), and the
    decoder runs on that directory; if the unpacking raises, the decoder
    does not run. *)
Theorem dcm_to_nifti_decoder_input (splitext0 : string -> string)
    (input_path : string) (output_path : Path) (verbose : bool) (w : world) :
  (is_zipfile input_path w = false ->
   forall tmp_dir,
     dcm_to_nifti extractall is_zipfile splitext0 dicom_series_to_nifti
       input_path output_path tmp_dir verbose w =
     dicom_series_to_nifti input_path output_path w) /\
  (is_zipfile input_path w = true ->
   forall tmp_dir,
     let extract_dir := str (joinpath tmp_dir "extracted_dcm") in
     let w' := if verbose
               then {| files := files w;
                       stdout := stdout w ++ [Text ("Extracting zip file: " ++ input_path)] |}
               else w in
     dcm_to_nifti extractall is_zipfile splitext0 dicom_series_to_nifti
       input_path output_path (Some tmp_dir) verbose w =
     match extractall input_path extract_dir w' with
     | (OK _, w'') => dicom_series_to_nifti extract_dir output_path w''
     | (Raise e, w'') => (Raise e, w'')
     end).
Proof.
  split; intros Hzip tmp_dir; unfold dcm_to_nifti, mbind; rewrite Hzip; simpl.
  - reflexivity.
  - destruct verbose; simpl;
      match goal with |- context [extractall ?a ?b ?c] =>
        destruct (extractall a b c) as [[[] | e] w''] end; reflexivity.
Qed.

End InProcess.

(** ** The multilabel helper *)

Section MultilabelProperties.

Variable Affine : Type.
Variable voxel : Type.
Variable above_half : voxel -> bool.



End MultilabelProperties.

(** * The further properties at sample inputs *)

Lemma reorient_to_lps_contract_witness :
  exists y,
    _reorient_to_lps None (fun _ : unit => [Some (1, 1%Z); Some (2, (-1)%Z); Some (0, 1%Z)])
      sample_img = OK y /\
    shape y = [2; 2; 3] /\
    item y [1; 1; 2] = item sample_volume [0; 0; 0].
Proof.
  destruct (reorient_to_lps_contract None
              (fun _ : unit => [Some (1, 1%Z); Some (2, (-1)%Z); Some (0, 1%Z)])
              sample_img (a0 := 1) (a1 := 2) (a2 := 0) (f0 := 1%Z) (f1 := (-1)%Z) (f2 := 1%Z)
              (n0 := 2) (n1 := 3) (n2 := 2) eq_refl eq_refl eq_refl)
    as (y & Hy & Hs & Hv).
  exists y. split; [exact Hy |]. split; [exact Hs |].
  apply (Hv 0 0 0); lia.
Defined.

Lemma reorient_lps_is_identity_witness :
  exists y,
    _reorient_to_lps None (fun _ : unit => axcodes2ornt [AxL; AxP; AxS]) sample_img = OK y /\
    array_equal y sample_volume.
Proof.
  apply (reorient_lps_is_identity None (fun _ : unit => axcodes2ornt [AxL; AxP; AxS])
           sample_img); reflexivity.
Defined.

Lemma export_without_labels_witness :
  save_mask_as_rtstruct None ras_affine Z.eqb no_create_error organA_fails
    (PyNifti1Image sample_seg) [(5%Z, "spleen")] "/ref" "/out/seg.dcm" [] =
  (OK tt, [("/out/seg.dcm", {| series_path := "/ref"; rois := [] |})]).
Proof.
  destruct (_reorient_to_lps None ras_affine sample_seg) as [lps |] eqn:Hlps;
    [| vm_compute in Hlps; discriminate Hlps].
  destruct (np_transpose lps [2; 1; 0]) as [sf |] eqn:Hsf;
    [| evaluated Hlps; discriminate].
  apply (export_without_labels None ras_affine Z.eqb no_create_error organA_fails
           sample_seg [(5%Z, "spleen")] "/ref" "/out/seg.dcm" [] Hlps Hsf eq_refl).
  intros k name [E | []]. injection E as <- _.
  apply class_present_false. intros idx Hb.
  evaluated Hlps. evaluated Hsf. every_index Hb.
Defined.


Lemma roi_masks_geometry_witness :
  exists doc,
    snd (sample_export organ_classes) = [("/out/seg.dcm", doc)] /\
    forall r, In r (rois doc) ->
      Permutation (shape (roi_mask r)) [2; 2; 2] /\
      forall idx, item (roi_mask r) idx = 0%Z \/ item (roi_mask r) idx = 1%Z.
Proof.
  destruct (roi_masks_geometry None ras_affine Z.eqb no_create_error no_roi_error
              sample_seg organ_classes "/ref" "/out/seg.dcm" []
              (w' := snd (sample_export organ_classes)) eq_refl)
    as (lps & doc & _ & Hw & H).
  exists doc. split; [exact Hw |]. intros r Hr.
  destruct (H r Hr) as (_ & Hp & Hv). split; [exact Hp | exact Hv].
Defined.

Lemma roi_masks_count_voxels_witness :
  exists doc,
    snd (sample_export organ_classes) = [("/out/seg.dcm", doc)] /\
    forall r, In r (rois doc) ->
      exists k,
        In (k, roi_name r) organ_classes /\
        Permutation (ravel (roi_mask r))
          (map (fun v => uint8_of_bool (v =? k)%Z) (ravel (get_fdata sample_seg))).
Proof.
  apply (roi_masks_count_voxels None ras_affine Z.eqb no_create_error no_roi_error
           sample_seg organ_classes "/ref" "/out/seg.dcm" []
           (w' := snd (sample_export organ_classes)) eq_refl).
Defined.

Lemma legacy_fails_without_output_witness :
  sample_legacy [] ct_output =
  (Raise (ValueError "dcm2niix failed to convert dicom to nifti."),
   {| files := [];
      stdout := [Text "Content of dcm2niix output folder (/out):"; Names []] |}).
Proof.
  apply (legacy_fails_without_output "Linux" "x86_64" on_path "/cfg" no_download
           no_download (emits []) "/in" ct_output false empty_world
           (w1 := empty_world)); reflexivity.
Defined.

Lemma legacy_keeps_other_files_witness :
  In (joinpath "/out" "notes.txt")
     (files (snd (sample_legacy volumes_and_notes ct_output))).
Proof.
  destruct (legacy_keeps_other_files "Linux" "x86_64" on_path "/cfg" no_download
              no_download (emits volumes_and_notes) "/in" ct_output false empty_world
              (w1 := {| files := volumes_and_notes; stdout := [] |}))
    as [_ H].
  - reflexivity.
  - distinct_paths.
  - reflexivity.
  - apply H; [simpl; auto 10 | reflexivity | reflexivity].
Defined.

Lemma legacy_output_survival_witness :
  existsb (is_file (str ct_output))
    (files (snd (sample_legacy three_volumes ct_output))) = true.
Proof.
  destruct (legacy_output_survival "Linux" "x86_64" on_path "/cfg" no_download
              no_download (emits three_volumes) "/in" ct_output false empty_world
              (w1 := {| files := three_volumes; stdout := [] |}))
    as [_ H].
  - reflexivity.
  - distinct_paths.
  - simpl. auto.
  - reflexivity.
  - apply H. right. eexists. reflexivity.
Defined.

Lemma run_dcm2niix_with_binary_witness :
  run_dcm2niix "Linux" "x86_64" on_path "/cfg" no_download no_download
    (emits three_volumes) "/in" ct_output false empty_world =
  (OK tt, {| files := three_volumes; stdout := [] |}).
Proof.
  destruct (run_dcm2niix_with_binary "Linux" "x86_64" on_path "/cfg" no_download
              no_download (emits three_volumes) "/in" ct_output false empty_world)
    as [H _].
  rewrite H; [reflexivity | discriminate].
Defined.

Lemma legacy_unknown_platform_witness :
  dcm_to_nifti_LEGACY "FreeBSD" "amd64" not_on_path "/cfg" no_download no_download
    (emits three_volumes) "/in" ct_output false empty_world =
  (Raise (ValueError
     "Unknown operating system. Can not download the right version of dcm2niix."),
   {| files := []; stdout := [Text "  Downloading dcm2niix..."] |}).
Proof.
  apply (legacy_unknown_platform (platform_system := "FreeBSD") "amd64" not_on_path
           "/cfg" no_download no_download (emits three_volumes) "/in" ct_output false
           empty_world);
    (reflexivity || discriminate).
Defined.

Lemma download_cleans_up_witness :
  download_dcm2niix "Linux" "x86_64" "/cfg" no_download unpacks_binary empty_world =
  (OK tt, {| files := [joinpath "/cfg" "dcm2niix"];
             stdout := [Text "  Downloading dcm2niix..."] |}).
Proof.
  destruct (download_cleans_up (platform_system := "Linux") "x86_64" "/cfg" no_download
              unpacks_binary empty_world
              (wa := {| files := []; stdout := [Text "  Downloading dcm2niix..."] |})
              (wb := snd (unpacks_binary "" ""
                            {| files := []; stdout := [Text "  Downloading dcm2niix..."] |})))
    as [H _].
  - right; right; reflexivity.
  - reflexivity.
  - reflexivity.
  - reflexivity.
  - exact H.
Defined.

Lemma download_without_binary_witness :
  download_dcm2niix "Linux" "x86_64" "/cfg" no_download no_download empty_world =
  (Raise (FileNotFoundError "/cfg/dcm2niix"),
   {| files := []; stdout := [Text "  Downloading dcm2niix..."] |}).
Proof.
  apply (download_without_binary (platform_system := "Linux") "x86_64" "/cfg" no_download
           no_download empty_world
           (wa := {| files := []; stdout := [Text "  Downloading dcm2niix..."] |})
           (wb := {| files := []; stdout := [Text "  Downloading dcm2niix..."] |})).
  - right; right; reflexivity.
  - reflexivity.
  - reflexivity.
  - reflexivity.
Defined.

Lemma dcm_to_nifti_decoder_input_witness :
  dcm_to_nifti no_download zip_by_name (fun p => p) no_decoder
    "/in/series" ct_output None true empty_world =
  no_decoder "/in/series" ct_output empty_world.
Proof.
  destruct (dcm_to_nifti_decoder_input no_download zip_by_name no_decoder (fun p => p)
              "/in/series" ct_output true empty_world) as [H _].
  apply H. reflexivity.
Defined.



(** ** More on orientations *)

(** X20: aligning a 3D array from an orientation to the same orientation
    returns it unchanged, for every axis-code triple that names each
    anatomical axis once. *)
Theorem align_same_codes (junk : orow) {voxel : Type} (x : ndarray voxel)
    (A : list axcode) :
  ndim x = 3 ->
  valid_axcodes A = true ->
  exists y, align junk x A A = OK y /\ array_equal y x.
Proof.
  intros Hnd HA. destruct (shape_3d _ Hnd) as (n0 & n1 & n2 & Hs).
  destruct A as [| a0 [| a1 [| a2 [| a3 A]]]]; try discriminate HA.
  destruct a0, a1, a2; try discriminate HA; clear HA;
    unfold align, align_ornt, apply_orientation, np_transpose, ndim; simpl;
    rewrite Hs; simpl;
    (eexists; split; [reflexivity |]);
    unfold array_equal; simpl; rewrite Hs; (split; [reflexivity |]);
    intros idx Hb; apply in_ndindex, in_ndindex3 in Hb;
    destruct Hb as (i & j & k & -> & _); reflexivity.
Qed.

(** X21: the rows [np.empty_like] leaves unassigned never reach the
    result: whatever they hold, [_reorient_to_lps] returns the same array or
    raises the same error. *)
Theorem reorient_ignores_unassigned_rows (junk junk' : orow) {Affine voxel : Type}
    (io_orientation : Affine -> ornt) (img : Nifti1Image Affine voxel) :
  _reorient_to_lps junk io_orientation img = _reorient_to_lps junk' io_orientation img.
Proof.
  unfold _reorient_to_lps.
  assert (E : ornt_transform junk (io_orientation (affine img))
                (axcodes2ornt [AxL; AxP; AxS]) =
              ornt_transform junk' (io_orientation (affine img))
                (axcodes2ornt [AxL; AxP; AxS])).
  { unfold ornt_transform.
    destruct (io_orientation (affine img)) as [| r0 [| r1 [| r2 [| r3 start]]]];
      try reflexivity.
    destruct r0 as [[a0 f0] |], r1 as [[a1 f1] |], r2 as [[a2 f2] |]; simpl;
      repeat match goal with
             | |- context [?a =? ?n] => destruct (Nat.eqb_spec a n); subst; simpl
             end; reflexivity. }
  now rewrite E.
Qed.

Lemma align_same_codes_witness :
  exists y, align None sample_volume [AxP; AxS; AxL] [AxP; AxS; AxL] = OK y /\
            array_equal y sample_volume.
Proof.
  apply (align_same_codes None sample_volume [AxP; AxS; AxL]); reflexivity.
Defined.
